(** * FX-forward sensitivity front end: the scenario orchestrator of [App.tsx]

    A shallow embedding of [runSensitivity] and of the part of the [App]
    component that triggers it.  JavaScript numbers are IEEE-754 binary64
    values, modelled by Rocq's primitive floats; the two number-to-string
    conversions the request builder relies on ([Number::toString], used by
    template literals, and [Number.prototype.toFixed]) are written out from
    their ECMAScript definitions on the exact rational value of a float.
    The asynchronous function is a resumption: a tree whose nodes are the
    state setters it calls and the promises it awaits. *)

From Stdlib Require Import Floats ZArith QArith Qround Bool List Lia.
From Stdlib Require Import Ascii String DecimalString.
Import ListNotations.

Set Warnings "-inexact-float".

Local Open Scope string_scope.
Local Open Scope Z_scope.

(* ===================================================================== *)
(** ** Strings *)
(* ===================================================================== *)

Module Str.

Fixpoint repeat (c : ascii) (n : nat) : string :=
  match n with
  | O => EmptyString
  | S n' => String c (repeat c n')
  end.

Fixpoint take (n : nat) (s : string) : string :=
  match n, s with
  | S n', String c s' => String c (take n' s')
  | _, _ => EmptyString
  end.

Fixpoint drop (n : nat) (s : string) : string :=
  match n, s with
  | S n', String _ s' => drop n' s'
  | _, _ => s
  end.

Fixpoint forallb (p : ascii -> bool) (s : string) : bool :=
  match s with
  | EmptyString => true
  | String c s' => p c && forallb p s'
  end.

(** [String.prototype.startsWith]. *)
Fixpoint startsWith (s sub : string) {struct sub} : bool :=
  match sub, s with
  | EmptyString, _ => true
  | String a sub', String b s' => Ascii.eqb a b && startsWith s' sub'
  | String _ _, EmptyString => false
  end.

(** [String.prototype.includes]: [sub] occurs somewhere in [s]. *)
Fixpoint includes (s sub : string) : bool :=
  startsWith s sub ||
  match s with
  | EmptyString => false
  | String _ s' => includes s' sub
  end.

(** Cut a string at every character satisfying [d]; the pieces between two
    cuts are kept, empty ones too. *)
Fixpoint split (d : ascii -> bool) (s : string) : list string :=
  match s with
  | EmptyString => [EmptyString]
  | String c s' =>
      if d c then EmptyString :: split d s'
      else match split d s' with
           | [] => [String c EmptyString]
           | p :: ps => String c p :: ps
           end
  end.

(** The pieces put back together, [c] between each two. *)
Fixpoint join (c : ascii) (pieces : list string) : string :=
  match pieces with
  | [] => EmptyString
  | [p] => p
  | p :: rest => p ++ String c (join c rest)
  end.

Definition isDigit (c : ascii) : bool :=
  let n := nat_of_ascii c in (48 <=? n)%nat && (n <=? 57)%nat.

(** Decimal digits of a natural number, ["0"] for zero. *)
Definition ofN (n : N) : string := NilZero.string_of_uint (N.to_uint n).

End Str.

(* ===================================================================== *)
(** ** Numbers: binary64 and its two decimal renderings *)
(* ===================================================================== *)

Module Num.

Local Open Scope Q_scope.

Definition pow2 (e : Z) : Q :=
  if (0 <=? e)%Z then inject_Z (2 ^ e) else 1 # Z.to_pos (2 ^ (- e)).

Definition pow10 (e : Z) : Q :=
  if (0 <=? e)%Z then inject_Z (10 ^ e) else 1 # Z.to_pos (10 ^ (- e)).

(** Exact value of the finite float with mantissa [m] and exponent [e]. *)
Definition mag (m : positive) (e : Z) : Q := inject_Z (Zpos m) * pow2 e.

Definition Qltb (a b : Q) : bool := negb (Qle_bool b a).

(** The reals that round to [mag m e] under round-to-nearest-even: an
    interval around it, closed exactly when the mantissa is even.  Below a
    power of two the neighbour is half as far, except at the bottom of the
    normal range. *)
Definition roundsTo (m : positive) (e : Z) (q : Q) : bool :=
  let v := mag m e in
  let up := pow2 (e - 1) in
  let down :=
    if Pos.eqb m (2 ^ 52) && (-1074 <? e)%Z then pow2 (e - 2) else pow2 (e - 1) in
  if Z.even (Zpos m)
  then Qle_bool (v - down) q && Qle_bool q (v + up)
  else Qltb (v - down) q && Qltb q (v + up).

(** The [n] with [10^(n-1) <= v < 10^n], searched upwards from [n]. *)
Fixpoint digitsBefore (fuel : nat) (n : Z) (v : Q) : Z :=
  match fuel with
  | O => n
  | S fuel' => if Qltb v (pow10 n) then n else digitsBefore fuel' (n + 1)%Z v
  end.

(** A starting point for that search that is not above the answer: with
    [2^b <= v], [b * log10 2] rounded down (0.30102 < log10 2 < 0.30103). *)
Definition log10Below (m : positive) (e : Z) : Z :=
  let b := (e + Z.log2 (Zpos m))%Z in
  if (0 <=? b)%Z then (b * 30102 / 100000)%Z else (b * 30103 / 100000)%Z.

(** One round of the search of [Number::toString]: is there a [k]-digit [s]
    with [s * 10^(n-k)] rounding to the float?  Of the (at most two)
    candidates around the value, the closer one, the even one on a tie. *)
Definition candidate (m : positive) (e : Z) (n k : Z) : option Z :=
  let v := mag m e in
  let unit := pow10 (n - k) in
  let s1 := Qfloor (v / unit) in
  let s2 := (s1 + 1)%Z in
  let ok1 := roundsTo m e (inject_Z s1 * unit) in
  let ok2 := roundsTo m e (inject_Z s2 * unit) in
  let d1 := v - inject_Z s1 * unit in
  let d2 := inject_Z s2 * unit - v in
  match ok1, ok2 with
  | false, false => None
  | true, false => Some s1
  | false, true => Some s2
  | true, true =>
      if Qltb d1 d2 then Some s1
      else if Qltb d2 d1 then Some s2
      else if Z.even s1 then Some s1 else Some s2
  end.

(** Shortest [k] first.  Returns the digits [s] and the exponent [n]; a
    candidate that is a full power of ten is the single digit 1, one
    place up. *)
Fixpoint shortest (fuel : nat) (m : positive) (e : Z) (n k : Z) : Z * Z :=
  match candidate m e n k with
  | Some s => if (s =? 10 ^ k)%Z then (10 ^ (k - 1), n + 1)%Z else (s, n)
  | None =>
      match fuel with
      | O => (Qfloor (mag m e / pow10 (n - k)), n)
      | S fuel' => shortest fuel' m e n (k + 1)%Z
      end
  end.

Local Open Scope string_scope.

Definition layout (ds : string) (n : Z) : string :=
  let k := Z.of_nat (String.length ds) in
  if ((k <=? n) && (n <=? 21))%Z then
    ds ++ Str.repeat "0" (Z.to_nat (n - k))
  else if ((0 <? n) && (n <=? 21))%Z then
    Str.take (Z.to_nat n) ds ++ "." ++ Str.drop (Z.to_nat n) ds
  else if ((-6 <? n) && (n <=? 0))%Z then
    "0." ++ Str.repeat "0" (Z.to_nat (- n)) ++ ds
  else
    let x := (n - 1)%Z in
    let sign := if (x <? 0)%Z then "-" else "+" in
    let ex := Str.ofN (Z.to_N (Z.abs x)) in
    if (k =? 1)%Z then ds ++ "e" ++ sign ++ ex
    else Str.take 1 ds ++ "." ++ Str.drop 1 ds ++ "e" ++ sign ++ ex.

Definition positiveToString (m : positive) (e : Z) : string :=
  let n := digitsBefore 640 (log10Below m e) (mag m e) in
  let '(s, n') := shortest 20 m e n 1 in
  layout (Str.ofN (Z.to_N s)) n'.

(** [Number::toString(x, 10)], what a template literal applies to a
    number. *)
Definition toString (x : float) : string :=
  match Prim2SF x with
  | S754_nan => "NaN"
  | S754_zero _ => "0"
  | S754_infinity false => "Infinity"
  | S754_infinity true => "-Infinity"
  | S754_finite false m e => positiveToString m e
  | S754_finite true m e => "-" ++ positiveToString m e
  end.

(** The digits of [Number.prototype.toFixed(f)] for a magnitude below
    [10^21]: the integer [n] nearest to [x * 10^f] (the larger on a tie),
    padded to more than [f] digits, with a point before the last [f]. *)
Definition fixedDigits (f : nat) (x : Q) : string :=
  let n := Qfloor (x * pow10 (Z.of_nat f) + (1 # 2))%Q in
  let m := Str.ofN (Z.to_N n) in
  match f with
  | O => m
  | _ =>
      let k := String.length m in
      let m' := if (k <=? f)%nat then Str.repeat "0" (f + 1 - k) ++ m else m in
      let k' := String.length m' in
      Str.take (k' - f) m' ++ "." ++ Str.drop (k' - f) m'
  end.

Definition positiveToFixed (f : nat) (m : positive) (e : Z) : string :=
  if Qle_bool (pow10 21) (mag m e) then positiveToString m e
  else fixedDigits f (mag m e).

Definition toFixed (f : nat) (x : float) : string :=
  match Prim2SF x with
  | S754_nan => "NaN"
  | S754_infinity false => "Infinity"
  | S754_infinity true => "-Infinity"
  | S754_zero _ => fixedDigits f 0
  | S754_finite false m e => positiveToFixed f m e
  | S754_finite true m e => "-" ++ positiveToFixed f m e
  end.

End Num.

(* ===================================================================== *)
(** ** Text: UTF-8 here, UTF-16 in JavaScript *)
(* ===================================================================== *)

(** A JavaScript string is a sequence of 16-bit code units.  Here a string
    is held as its UTF-8 text, a lone surrogate in the three-byte form; for
    ASCII text the bytes are the code units. *)
Module Utf.

Local Open Scope N_scope.

Definition continues (b : N) : bool := (128 <=? b) && (b <? 192).

(** The code points of a UTF-8 text.  A byte that does not start a
    well-formed sequence is taken by itself. *)
Fixpoint codePoints (bytes : list N) : list N :=
  match bytes with
  | [] => []
  | b :: rest =>
      let alone := b :: codePoints rest in
      if b <? 192 then alone
      else if b <? 224 then
        match rest with
        | c1 :: rest1 =>
            if continues c1
            then ((b - 192) * 64 + (c1 - 128)) :: codePoints rest1
            else alone
        | _ => alone
        end
      else if b <? 240 then
        match rest with
        | c1 :: c2 :: rest2 =>
            if continues c1 && continues c2
            then ((b - 224) * 4096 + (c1 - 128) * 64 + (c2 - 128)) :: codePoints rest2
            else alone
        | _ => alone
        end
      else if b <? 248 then
        match rest with
        | c1 :: c2 :: c3 :: rest3 =>
            if continues c1 && continues c2 && continues c3
            then ((b - 240) * 262144 + (c1 - 128) * 4096 + (c2 - 128) * 64 + (c3 - 128))
                 :: codePoints rest3
            else alone
        | _ => alone
        end
      else alone
  end.

(** A code point above the basic plane is a pair of surrogates. *)
Definition unitsOf (cp : N) : list N :=
  if cp <? 65536 then [cp]
  else [55296 + (cp - 65536) / 1024; 56320 + (cp - 65536) mod 1024].

(** The UTF-16 code units of a text. *)
Definition units (s : string) : list N :=
  flat_map unitsOf (codePoints (map N_of_ascii (list_ascii_of_string s))).

(** The one-unit string of a code unit. *)
Definition unitString (u : N) : string :=
  string_of_list_ascii
    (map ascii_of_N
       (if u <? 128 then [u]
        else if u <? 2048 then [192 + u / 64; 128 + u mod 64]
        else [224 + u / 4096; 128 + (u / 64) mod 64; 128 + u mod 64])).

End Utf.

(* ===================================================================== *)
(** ** Values received from the simulation service *)
(* ===================================================================== *)

(** What [res.json()] can resolve to.  An object is its list of own
    properties; [JSON.parse] never leaves two entries with one key.  A
    string is held as its UTF-8 text. *)
#[warnings="-register-all"]
Inductive JSON : Type :=
| JNull
| JBool (b : bool)
| JNum (x : float)
| JStr (s : string)
| JArr (xs : list JSON)
| JObj (props : list (string * JSON)).

(** A thrown value: an [Error] instance with its message, or anything
    else. *)
Inductive Thrown : Type :=
| ErrorObj (name message : string)
| OtherValue.

Inductive Settled (A : Type) : Type :=
| Fulfilled (a : A)
| Rejected (t : Thrown).
Arguments Fulfilled {A} a.
Arguments Rejected {A} t.

(** The [Response] a fulfilled [fetch] yields: its status and what reading
    its body as JSON settles to. *)
Record Response : Type := mkResponse {
  status : N;
  json : Settled JSON
}.

(** [res.ok]: the status is in the range 200-299. *)
Definition ok (res : Response) : bool :=
  (200 <=? status res)%N && (status res <=? 299)%N.

Module Js.

Fixpoint lookup (key : string) (props : list (string * JSON)) : option JSON :=
  match props with
  | [] => None
  | (k, v) :: rest => if String.eqb k key then Some v else lookup key rest
  end.

(** Assignment to a property: in place when the key exists, appended
    otherwise. *)
Fixpoint assign (key : string) (v : JSON) (props : list (string * JSON))
  : list (string * JSON) :=
  match props with
  | [] => [(key, v)]
  | (k, old) :: rest =>
      if String.eqb k key then (k, v) :: rest else (k, old) :: assign key v rest
  end.

Fixpoint indexed {A} (f : A -> JSON) (i : N) (xs : list A) : list (string * JSON) :=
  match xs with
  | [] => []
  | x :: rest => (Str.ofN i, f x) :: indexed f (N.succ i) rest
  end.

(** The own enumerable properties an object spread [{...p}] copies: those of
    an object, the elements of an array, the code units of a string, and
    nothing for [null], a boolean or a number. *)
Definition ownProps (p : JSON) : list (string * JSON) :=
  match p with
  | JObj props => props
  | JArr xs => indexed (fun x => x) 0 xs
  | JStr s => indexed (fun u => JStr (Utf.unitString u)) 0 (Utf.units s)
  | _ => []
  end.

Definition typeError (message : string) : Thrown := ErrorObj "TypeError" message.

(** [data.key] for one of the two keys the code reads ([underlyingStats],
    [pvStats]), which no prototype defines: [None] is [undefined].  The
    message texts are V8's. *)
Definition member (data : JSON) (key : string) : Settled (option JSON) :=
  match data with
  | JNull =>
      Rejected (typeError ("Cannot read properties of null (reading '" ++ key ++ "')"))
  | JObj props => Fulfilled (lookup key props)
  | _ => Fulfilled None
  end.

(** [value.map(f)]: only an array has a callable [map]. *)
Definition arrayMap (path : string) (value : option JSON) (f : JSON -> JSON)
  : Settled (list JSON) :=
  match value with
  | None =>
      Rejected (typeError "Cannot read properties of undefined (reading 'map')")
  | Some JNull =>
      Rejected (typeError "Cannot read properties of null (reading 'map')")
  | Some (JArr xs) => Fulfilled (List.map f xs)
  | Some _ => Rejected (typeError (path ++ ".map is not a function"))
  end.

End Js.

(* ===================================================================== *)
(** ** State of the [App] component *)
(* ===================================================================== *)

Inductive ModelType : Type := gbm | ou.
Inductive ShockParam : Type := spot | vol.
Inductive ShiftPct : Type := Pct10 | Pct20 | Pct50.

Definition pctNumber (p : ShiftPct) : float :=
  match p with
  | Pct10 => 10%float
  | Pct20 => 20%float
  | Pct50 => 50%float
  end.

(** The form fields, each a [useState] cell. *)
Record Form : Type := mkForm {
  modelType : ModelType;
  maturity : float;
  r_dom : float;
  r_for : float;
  gbmSpot : float;
  gbmSigma : float;
  gbmMu : float;
  ouSpot : float;
  ouKappa : float;
  ouTheta : float;
  ouSigma : float;
  shockParam : ShockParam;
  shiftPct : ShiftPct
}.

(** What the presentation sees of a run. *)
Record View : Type := mkView {
  loading : bool;
  errorMsg : option string;
  underlyingStats : list JSON;
  pvStats : list JSON
}.

Definition initialForm : Form :=
  {| modelType := gbm;
     maturity := 1.0%float; r_dom := 0.03%float; r_for := 0.01%float;
     gbmSpot := 1.10%float; gbmSigma := 0.15%float; gbmMu := 0.05%float;
     ouSpot := 1.10%float; ouKappa := 3.0%float; ouTheta := 1.10%float;
     ouSigma := 0.12%float;
     shockParam := spot; shiftPct := Pct20 |}.

Definition initialView : View :=
  {| loading := false; errorMsg := None; underlyingStats := []; pvStats := [] |}.

(** [import.meta.env.VITE_API_URL || 'http://localhost:5053']. *)
Definition API_BASE (VITE_API_URL : option string) : string :=
  match VITE_API_URL with
  | None | Some EmptyString => "http://localhost:5053"
  | Some url => url
  end.

(* ===================================================================== *)
(** ** The asynchronous function as a resumption *)
(* ===================================================================== *)

(** The effects of the function on the component: the four state setters
    and [console.error].  React renders the updates made between two
    [await]s together, so the views that reach the screen are those at the
    [await]s and at the end. *)
Inductive Cmd : Type :=
| SetLoading (b : bool)
| SetErrorMsg (m : option string)
| SetUnderlyingStats (l : list JSON)
| SetPvStats (l : list JSON)
| ConsoleError (t : Thrown).

Inductive Async (A : Type) : Type :=
| Ret (a : A)
| Throw (t : Thrown)
| Do (c : Cmd) (k : Async A)
| AwaitFetch (url : string) (k : Settled Response -> Async A)
| AwaitJson (res : Response) (k : Settled JSON -> Async A).
Arguments Ret {A} a.
Arguments Throw {A} t.
Arguments Do {A} c k.
Arguments AwaitFetch {A} url k.
Arguments AwaitJson {A} res k.

Fixpoint bind {A B} (m : Async A) (f : A -> Async B) : Async B :=
  match m with
  | Ret a => f a
  | Throw t => Throw t
  | Do c k => Do c (bind k f)
  | AwaitFetch url k => AwaitFetch url (fun r => bind (k r) f)
  | AwaitJson res k => AwaitJson res (fun r => bind (k r) f)
  end.

(** [try { m } catch (err) { h err }]. *)
Fixpoint catch {A} (m : Async A) (h : Thrown -> Async A) : Async A :=
  match m with
  | Ret a => Ret a
  | Throw t => h t
  | Do c k => Do c (catch k h)
  | AwaitFetch url k => AwaitFetch url (fun r => catch (k r) h)
  | AwaitJson res k => AwaitJson res (fun r => catch (k r) h)
  end.

(** [try { m } finally { f }] with an [f] that completes normally: the
    completion of [m] stands. *)
Fixpoint finally {A} (m : Async A) (f : Async unit) : Async A :=
  match m with
  | Ret a => bind f (fun _ => Ret a)
  | Throw t => bind f (fun _ => Throw t)
  | Do c k => Do c (finally k f)
  | AwaitFetch url k => AwaitFetch url (fun r => finally (k r) f)
  | AwaitJson res k => AwaitJson res (fun r => finally (k r) f)
  end.

Declare Scope async_scope.
Delimit Scope async_scope with async.
Notation "x <- m ;; k" := (bind m (fun x => k))
  (at level 61, m at next level, right associativity) : async_scope.
Notation "' pat <- m ;; k" := (bind m (fun pat => k))
  (at level 61, pat pattern, m at next level, right associativity) : async_scope.
Notation "m ;; k" := (bind m (fun _ => k))
  (at level 61, right associativity) : async_scope.
Local Open Scope async_scope.

Definition exec_cmd (c : Cmd) : Async unit := Do c (Ret tt).
Definition setLoading (b : bool) := exec_cmd (SetLoading b).
Definition setErrorMsg (m : option string) := exec_cmd (SetErrorMsg m).
Definition setUnderlyingStats (l : list JSON) := exec_cmd (SetUnderlyingStats l).
Definition setPvStats (l : list JSON) := exec_cmd (SetPvStats l).
Definition consoleError (t : Thrown) := exec_cmd (ConsoleError t).

(** [await p]: the value of a fulfilled promise, a throw for a rejected
    one. *)
Definition settle {A} (r : Settled A) : Async A :=
  match r with
  | Fulfilled a => Ret a
  | Rejected t => Throw t
  end.

Definition fetch (url : string) : Async Response := AwaitFetch url settle.
Definition readJson (res : Response) : Async JSON := AwaitJson res settle.

(** [for (let i = from; i < from + count; i++) body], threading the arrays
    the body pushes to. *)
Fixpoint forLoop {T} (count from : nat) (body : nat -> T -> Async T) (acc : T)
  : Async T :=
  match count with
  | O => Ret acc
  | S count' => acc' <- body from acc ;; forLoop count' (S from) body acc'
  end.

(* ===================================================================== *)
(** ** [runSensitivity] *)
(* ===================================================================== *)

Definition shiftFactors (shiftPct : ShiftPct) : list float :=
  [ (1 - pctNumber shiftPct / 100)%float;
    1%float;
    (1 + pctNumber shiftPct / 100)%float ].

Definition scenarioLabels (shiftPct : ShiftPct) : list string :=
  [ "Down -" ++ Num.toString (pctNumber shiftPct) ++ "%";
    "Base 0%";
    "Up +" ++ Num.toString (pctNumber shiftPct) ++ "%" ].

(** An array read; an index past the end gives [undefined], which
    multiplies to [NaN] and prints as ["undefined"]. *)
Definition factorAt (shiftPct : ShiftPct) (i : nat) : float :=
  nth i (shiftFactors shiftPct) nan.
Definition labelAt (shiftPct : ShiftPct) (i : nat) : string :=
  nth i (scenarioLabels shiftPct) "undefined".

Definition modelName (m : ModelType) : string :=
  match m with gbm => "gbm" | ou => "ou" end.

Definition baseSpot (f : Form) : float :=
  match modelType f with gbm => gbmSpot f | ou => ouSpot f end.
Definition baseVol (f : Form) : float :=
  match modelType f with gbm => gbmSigma f | ou => ouSigma f end.

Definition currentSpot (f : Form) (i : nat) : float :=
  match shockParam f with
  | spot => (baseSpot f * factorAt (shiftPct f) i)%float
  | vol => baseSpot f
  end.
Definition currentVol (f : Form) (i : nat) : float :=
  match shockParam f with
  | vol => (baseVol f * factorAt (shiftPct f) i)%float
  | spot => baseVol f
  end.

(** Lines 86-94: the request string of scenario [i]. *)
Definition requestUrl (base : string) (f : Form) (i : nat) : string :=
  let url := base ++ "/api/simulation/fx-forward-paths?" in
  let url := url ++ "model=" ++ modelName (modelType f)
                 ++ "&paths=200&steps=200&maturity=" ++ Num.toString (maturity f) in
  let url := url ++ "&r_dom=" ++ Num.toString (r_dom f)
                 ++ "&r_for=" ++ Num.toString (r_for f)
                 ++ "&spot=" ++ Num.toFixed 4 (currentSpot f i) in
  match modelType f with
  | gbm => url ++ "&sigma_gbm=" ++ Num.toFixed 4 (currentVol f i)
  | ou => url ++ "&sigma_ou=" ++ Num.toFixed 4 (currentVol f i)
              ++ "&kappa=" ++ Num.toString (ouKappa f)
              ++ "&theta=" ++ Num.toString (ouTheta f)
  end.

(** [{...p, scenario: label}]. *)
Definition tag (label : string) (p : JSON) : JSON :=
  JObj (Js.assign "scenario" (JStr label) (Js.ownProps p)).

(** Lines 102-110: [data.key.map(p => ({...p, scenario: label}))], which
    throws when [data.key] is not an array. *)
Definition taggedSeries (data : JSON) (key label : string) : Settled (list JSON) :=
  match Js.member data key with
  | Rejected t => Rejected t
  | Fulfilled series => Js.arrayMap ("data." ++ key) series (tag label)
  end.

(** Line 97: [new Error(`Scenario ${label} failed: ${res.status}`)]. *)
Definition statusError (label : string) (res : Response) : Thrown :=
  ErrorObj "Error" ("Scenario " ++ label ++ " failed: " ++ Str.ofN (status res)).

(** The body of the loop, lines 82-113, on the two arrays collected so
    far.  Both series are tagged before either is pushed.  (The limit an
    engine puts on the number of arguments of [push(...xs)] is not
    modelled.) *)
Definition scenario (base : string) (f : Form) (i : nat)
    (acc : list JSON * list JSON) : Async (list JSON * list JSON) :=
  let '(allUnderlying, allPv) := acc in
  let label := labelAt (shiftPct f) i in
  res <- fetch (requestUrl base f i) ;;
  if negb (ok res) then Throw (statusError label res)
  else
    data <- readJson res ;;
    underlyingTagged <- settle (taggedSeries data "underlyingStats" label) ;;
    pvTagged <- settle (taggedSeries data "pvStats" label) ;;
    Ret ((allUnderlying ++ underlyingTagged)%list, (allPv ++ pvTagged)%list).

Definition messageOf (err : Thrown) : string :=
  match err with
  | ErrorObj _ message => message
  | OtherValue => "Failed to run sensitivity"
  end.

Definition runSensitivity (base : string) (f : Form) : Async unit :=
  setLoading true ;;
  setErrorMsg None ;;
  setUnderlyingStats [] ;;
  setPvStats [] ;;
  finally
    (catch
       ('(allUnderlying, allPv) <- forLoop 3 0 (scenario base f) ([], []) ;;
        setUnderlyingStats allUnderlying ;;
        setPvStats allPv)
       (fun err =>
          setErrorMsg (Some (messageOf err)) ;;
          consoleError err))
    (setLoading false).

(* ===================================================================== *)
(** ** Running it *)
(* ===================================================================== *)

Definition apply (c : Cmd) (v : View) : View :=
  match c with
  | SetLoading b =>
      {| loading := b; errorMsg := errorMsg v;
         underlyingStats := underlyingStats v; pvStats := pvStats v |}
  | SetErrorMsg m =>
      {| loading := loading v; errorMsg := m;
         underlyingStats := underlyingStats v; pvStats := pvStats v |}
  | SetUnderlyingStats l =>
      {| loading := loading v; errorMsg := errorMsg v;
         underlyingStats := l; pvStats := pvStats v |}
  | SetPvStats l =>
      {| loading := loading v; errorMsg := errorMsg v;
         underlyingStats := underlyingStats v; pvStats := l |}
  | ConsoleError _ => v
  end.

Definition logged (c : Cmd) : list Thrown :=
  match c with
  | ConsoleError t => [t]
  | _ => []
  end.

(** The service and the network, as seen from one run: what the [n]-th
    [fetch] of the run settles to, given its request string. *)
Definition World : Type := nat -> string -> Settled Response.

(** A whole run: how it completed, the view it leaves, the request strings
    it issued, the views that were on screen while it was suspended at an
    [await], and what it wrote to the console. *)
Record Outcome (A : Type) : Type := mkOutcome {
  completion : Settled A;
  final : View;
  requests : list string;
  seen : list View;
  console : list Thrown
}.
Arguments mkOutcome {A}.
Arguments completion {A}.
Arguments final {A}.
Arguments requests {A}.
Arguments seen {A}.
Arguments console {A}.

Definition before {A} (urls : list string) (views : list View)
    (errs : list Thrown) (o : Outcome A) : Outcome A :=
  {| completion := completion o;
     final := final o;
     requests := urls ++ requests o;
     seen := views ++ seen o;
     console := errs ++ console o |}%list.

(** [exec w m n v]: run [m] to completion from view [v], [n] fetches having
    been issued before. *)
Fixpoint exec {A} (w : World) (m : Async A) (n : nat) (v : View) : Outcome A :=
  match m with
  | Ret a => mkOutcome (Fulfilled a) v [] [] []
  | Throw t => mkOutcome (Rejected t) v [] [] []
  | Do c k => before [] [] (logged c) (exec w k n (apply c v))
  | AwaitFetch url k => before [url] [v] [] (exec w (k (w n url)) (S n) v)
  | AwaitJson res k => before [] [v] [] (exec w (k (json res)) n v)
  end.

(** *** The component between events

    The page holds the form, the view and the runs suspended at an
    [await].  The button carries [disabled={loading}], and a disabled button
    dispatches no click: its handler runs only while [loading] is false.
    The handler closes over the form of the render it was created in, so a
    run keeps the parameters it started with. *)
Record Page : Type := mkPage {
  form : Form;
  view : View;
  pending : list (Async unit)
}.

Inductive Event : Type :=
| Click
| Edit (f : Form)
| FetchSettled (task : nat) (r : Settled Response)
| JsonSettled (task : nat).

(** Run synchronously up to the next [await] or to the end. *)
Fixpoint advance (m : Async unit) (v : View) : View * list (Async unit) :=
  match m with
  | Ret _ | Throw _ => (v, [])
  | Do c k => advance k (apply c v)
  | AwaitFetch _ _ | AwaitJson _ _ => (v, [m])
  end.

Fixpoint remove_nth {A} (n : nat) (l : list A) : list A :=
  match n, l with
  | _, [] => []
  | O, _ :: rest => rest
  | S n', x :: rest => x :: remove_nth n' rest
  end.

Definition resume (p : Page) (task : nat) (m : Async unit) : Page :=
  let '(v, susp) := advance m (view p) in
  {| form := form p; view := v;
     pending := (remove_nth task (pending p) ++ susp)%list |}.

Definition step (base : string) (p : Page) (e : Event) : Page :=
  match e with
  | Click =>
      if loading (view p) then p
      else
        let '(v, susp) := advance (runSensitivity base (form p)) (view p) in
        {| form := form p; view := v; pending := (pending p ++ susp)%list |}
  | Edit f => {| form := f; view := view p; pending := pending p |}
  | FetchSettled task r =>
      match nth_error (pending p) task with
      | Some (AwaitFetch _ k) => resume p task (k r)
      | _ => p
      end
  | JsonSettled task =>
      match nth_error (pending p) task with
      | Some (AwaitJson res k) => resume p task (k (json res))
      | _ => p
      end
  end.

Definition initialPage : Page :=
  {| form := initialForm; view := initialView; pending := [] |}.

Definition play (base : string) (events : list Event) : Page :=
  fold_left (step base) events initialPage.

(** The events by which a world settles, one after the other, the promises
    of a single run. *)
Fixpoint schedule (w : World) (m : Async unit) (n : nat) : list Event :=
  match m with
  | Ret _ | Throw _ => []
  | Do _ k => schedule w k n
  | AwaitFetch url k => FetchSettled 0 (w n url) :: schedule w (k (w n url)) (S n)
  | AwaitJson res k => JsonSettled 0 :: schedule w (k (json res)) n
  end.

(** Number of runs a page holds suspended at an [await]. *)
Definition inFlight (p : Page) : nat := List.length (pending p).

(* ===================================================================== *)
(** ** Vocabulary of the properties *)
(* ===================================================================== *)

(** *** Request strings *)

Definition delimiter (c : ascii) : bool := Ascii.eqb c "?" || Ascii.eqb c "&".

(** The query components of a request string: what lies between the
    delimiters [?] and [&], after the first of them. *)
Definition query (url : string) : list string := tl (Str.split delimiter url).

(** No delimiter occurs in [s]. *)
Definition clean (s : string) : bool :=
  Str.forallb (fun c => negb (delimiter c)) s.

(** The query components [runSensitivity] writes for scenario [i], in the
    order it writes them. *)
Definition parameters (f : Form) (i : nat) : list string :=
  [ "model=" ++ modelName (modelType f);
    "paths=200";
    "steps=200";
    "maturity=" ++ Num.toString (maturity f);
    "r_dom=" ++ Num.toString (r_dom f);
    "r_for=" ++ Num.toString (r_for f);
    "spot=" ++ Num.toFixed 4 (currentSpot f i) ]
  ++ match modelType f with
     | gbm => [ "sigma_gbm=" ++ Num.toFixed 4 (currentVol f i) ]
     | ou => [ "sigma_ou=" ++ Num.toFixed 4 (currentVol f i);
               "kappa=" ++ Num.toString (ouKappa f);
               "theta=" ++ Num.toString (ouTheta f) ]
     end.

Definition endpoint (base : string) : string :=
  base ++ "/api/simulation/fx-forward-paths".

(** The value of the first component [name=value]. *)
Fixpoint valueOf (name : string) (components : list string) : option string :=
  match components with
  | [] => None
  | c :: rest =>
      if Str.startsWith c (name ++ "=")
      then Some (Str.drop (String.length name + 1) c)
      else valueOf name rest
  end.

(** A decimal numeral with exactly [f] digits after the point: an optional
    sign, at least one digit, a point, [f] digits. *)
Definition isFixed (f : nat) (s : string) : bool :=
  let body :=
    match s with
    | String c r => if Ascii.eqb c "-" then r else s
    | EmptyString => s
    end in
  match Str.split (Ascii.eqb ".") body with
  | [a; b] =>
      negb (String.eqb a "") && Str.forallb Str.isDigit a
      && Nat.eqb (String.length b) f && Str.forallb Str.isDigit b
  | _ => false
  end.

(** The numbers [toFixed] renders in positional notation: the finite ones of
    magnitude below [10^21]. *)
Definition fixedRange (x : float) : bool :=
  match Prim2SF x with
  | S754_zero _ => true
  | S754_finite _ m e => Num.Qltb (Num.mag m e) (Num.pow10 21)
  | _ => false
  end.


Definition withMu (f : Form) (mu : float) : Form :=
  {| modelType := modelType f;
     maturity := maturity f; r_dom := r_dom f; r_for := r_for f;
     gbmSpot := gbmSpot f; gbmSigma := gbmSigma f; gbmMu := mu;
     ouSpot := ouSpot f; ouKappa := ouKappa f; ouTheta := ouTheta f;
     ouSigma := ouSigma f;
     shockParam := shockParam f; shiftPct := shiftPct f |}.

(** *** Response bodies *)

(** The array under [key], when the body is an object that has one. *)
Definition seriesOf (data : JSON) (key : string) : option (list JSON) :=
  match data with
  | JObj props =>
      match Js.lookup key props with
      | Some (JArr xs) => Some xs
      | _ => None
      end
  | _ => None
  end.

(** The error [data.key.map] throws when there is no such array. *)
Definition noSeries (data : JSON) (key : string) : Thrown :=
  match taggedSeries data key "" with
  | Rejected t => t
  | Fulfilled _ => OtherValue
  end.

Definition numericField (p : JSON) (key : string) : bool :=
  match p with
  | JObj props =>
      match Js.lookup key props with
      | Some (JNum _) => true
      | _ => false
      end
  | _ => false
  end.

(** The shape the interface [StatsPoint] declares for a point of a
    response. *)
Definition isStatsPoint (p : JSON) : bool :=
  numericField p "time" && numericField p "mean"
  && numericField p "p5" && numericField p "p95".

(** A body of the expected shape: both arrays, of such points. *)
Definition conforms (data : JSON) : bool :=
  match seriesOf data "underlyingStats", seriesOf data "pvStats" with
  | Some us, Some ps => forallb isStatsPoint us && forallb isStatsPoint ps
  | _, _ => false
  end.

(** The own property [key] of a point that is an object. *)
Definition fieldOf (key : string) (p : JSON) : option JSON :=
  match p with
  | JObj props => Js.lookup key props
  | _ => None
  end.

Definition scenarioOf (p : JSON) : option JSON :=
  match p with
  | JObj props => Js.lookup "scenario" props
  | _ => None
  end.

(** *** Runs *)

(** What one scenario call comes to, given what its fetch settled to: the
    two series of the body, or the error thrown. *)
Definition callResult (label : string) (r : Settled Response)
  : Settled (list JSON * list JSON) :=
  match r with
  | Rejected t => Rejected t
  | Fulfilled res =>
      if ok res then
        match json res with
        | Rejected t => Rejected t
        | Fulfilled data =>
            match seriesOf data "underlyingStats", seriesOf data "pvStats" with
            | Some us, Some ps => Fulfilled (us, ps)
            | None, _ => Rejected (noSeries data "underlyingStats")
            | Some _, None => Rejected (noSeries data "pvStats")
            end
        end
      else Rejected (statusError label res)
  end.

(** The answer to scenario [i] of a run that starts after [n] fetches. *)
Definition answer (w : World) (base : string) (f : Form) (n i : nat)
  : Settled (list JSON * list JSON) :=
  callResult (labelAt (shiftPct f) i) (w (n + i)%nat (requestUrl base f i)).

(** Lines 102-113 without the calls: tag the points of each labelled body
    and push them, in the order given. *)
Definition aggregate (pairs : list (string * (list JSON * list JSON)))
  : list JSON * list JSON :=
  fold_left
    (fun acc pair =>
       let '(label, (us, ps)) := pair in
       (fst acc ++ map (tag label) us, snd acc ++ map (tag label) ps)%list)
    pairs ([], []).

(** The points of one series of a labelled body, tagged with its label. *)
Definition taggedWith (series : list JSON * list JSON -> list JSON)
    (pair : string * (list JSON * list JSON)) : list JSON :=
  map (tag (fst pair)) (series (snd pair)).
Definition underlyingOf := taggedWith fst.
Definition presentValueOf := taggedWith snd.

Definition runningView : View :=
  {| loading := true; errorMsg := None; underlyingStats := []; pvStats := [] |}.

Definition failedView (t : Thrown) : View :=
  {| loading := false; errorMsg := Some (messageOf t);
     underlyingStats := []; pvStats := [] |}.

Definition publishedView (result : list JSON * list JSON) : View :=
  {| loading := false; errorMsg := None;
     underlyingStats := fst result; pvStats := snd result |}.

(** [steady l m]: started with [loading = l], the run [m] has [loading] true
    at each of its [await]s and false when it ends. *)
Fixpoint steady {A} (l : bool) (m : Async A) : Prop :=
  match m with
  | Ret _ | Throw _ => l = false
  | Do (SetLoading b) k => steady b k
  | Do _ k => steady l k
  | AwaitFetch _ k => l = true /\ forall r, steady true (k r)
  | AwaitJson _ k => l = true /\ forall r, steady true (k r)
  end.

(** [quiet m]: [m] never calls [setLoading]. *)
Fixpoint quiet {A} (m : Async A) : Prop :=
  match m with
  | Ret _ | Throw _ => True
  | Do (SetLoading _) _ => False
  | Do _ k => quiet k
  | AwaitFetch _ k => forall r, quiet (k r)
  | AwaitJson _ k => forall r, quiet (k r)
  end.

(** The pages on which [loading] tells whether a run is pending, and at most
    one is. *)
Definition orderly (p : Page) : Prop :=
  match pending p with
  | [] => loading (view p) = false
  | [t] => loading (view p) = true /\ steady true t
  | _ => False
  end.

(** *** Sample inputs *)

Definition point (t : float) : JSON :=
  JObj [("time", JNum t); ("mean", JNum 1.5%float);
        ("p5", JNum 1%float); ("p95", JNum 2%float)].

Definition goodBody : JSON :=
  JObj [("underlyingStats", JArr [point 0%float; point 1%float]);
        ("pvStats", JArr [point 0%float])].

Definition goodResponse : Response :=
  {| status := 200; json := Fulfilled goodBody |}.

(** A service that always answers. *)
Definition serviceUp : World := fun _ _ => Fulfilled goodResponse.

(** The network fails at the second call of the run. *)
Definition networkDownAtSecond : World :=
  fun n _ =>
    match n with
    | 1%nat => Rejected (ErrorObj "TypeError" "Failed to fetch")
    | _ => Fulfilled goodResponse
    end.

(** A body with both arrays whose points are not of the declared shape. *)
Definition oddBody : JSON :=
  JObj [("underlyingStats", JArr [JObj [("time", JStr "soon")]; JNull]);
        ("pvStats", JArr [JObj [("mean", JBool true)]])].

Definition oddService : World :=
  fun _ _ => Fulfilled {| status := 200; json := Fulfilled oddBody |}.


(** The Ornstein-Uhlenbeck form of the request-shaping example. *)
Definition ouForm : Form :=
  {| modelType := ou;
     maturity := 1.0%float; r_dom := 0.03%float; r_for := 0.01%float;
     gbmSpot := 1.10%float; gbmSigma := 0.15%float; gbmMu := 0.05%float;
     ouSpot := 1.10%float; ouKappa := 3.0%float; ouTheta := 1.10%float;
     ouSigma := 0.12%float;
     shockParam := vol; shiftPct := Pct10 |}.

(* ===================================================================== *)
(** ** What the component renders *)
(* ===================================================================== *)

(** Of the returned markup, the parts that depend on the state of a run: the
    button, the error box, and the lines of the two charts.  The form
    controls and the styling are left out. *)

(** Lines 329-339: the button. *)
Record Button : Type := mkButton {
  disabled : bool;
  caption : string
}.

Definition runButton (v : View) : Button :=
  {| disabled := loading v;
     caption := if loading v then "Running…" else "Run Sensitivity" |}.

(** Lines 341-345, [errorMsg && <div>{errorMsg}</div>]: [null] and the empty
    string are falsy, and nothing is shown for them. *)
Definition errorBox (v : View) : option string :=
  match errorMsg v with
  | None | Some EmptyString => None
  | Some message => Some message
  end.

Module Chart.

(** A [<Line>] of a chart: its data, the field it plots, its legend name,
    its colour, and whether it is dashed. *)
Record Line : Type := mkLine {
  data : list JSON;
  dataKey : string;
  name : string;
  stroke : string;
  dashed : bool
}.

(** Lines 126-127. *)
Definition scenarios : list string := ["Down"; "Base"; "Up"].
Definition colors : list string := ["#ef4444"; "#3b82f6"; "#10b981"].

(** [d.scenario.includes(label)] for an element [d] of a series.  A string
    has [includes], and so has an array; on anything else the call
    throws. *)
Definition includes (label : string) (d : JSON) : Settled bool :=
  match d with
  | JNull =>
      Rejected (Js.typeError "Cannot read properties of null (reading 'scenario')")
  | JObj props =>
      match Js.lookup "scenario" props with
      | Some (JStr s) => Fulfilled (Str.includes s label)
      | Some (JArr xs) =>
          Fulfilled
            (existsb (fun x => match x with
                               | JStr s => String.eqb s label
                               | _ => false
                               end) xs)
      | Some JNull =>
          Rejected (Js.typeError "Cannot read properties of null (reading 'includes')")
      | Some _ => Rejected (Js.typeError "d.scenario.includes is not a function")
      | None =>
          Rejected (Js.typeError "Cannot read properties of undefined (reading 'includes')")
      end
  | _ =>
      Rejected (Js.typeError "Cannot read properties of undefined (reading 'includes')")
  end.

(** Lines 369 and 427: [series.filter((d) => d.scenario.includes(label))],
    element by element; the first throw ends it. *)
Fixpoint filter (label : string) (series : list JSON) : Settled (list JSON) :=
  match series with
  | [] => Fulfilled []
  | d :: rest =>
      match includes label d with
      | Rejected t => Rejected t
      | Fulfilled keep =>
          match filter label rest with
          | Rejected t => Rejected t
          | Fulfilled kept => Fulfilled (if keep then d :: kept else kept)
          end
      end
  end.

(** Lines 371-402: the three lines drawn for one scenario. *)
Definition group (series : list JSON) (label color : string) : Settled (list Line) :=
  match filter label series with
  | Rejected t => Rejected t
  | Fulfilled filteredData =>
      Fulfilled
        [ {| data := filteredData; dataKey := "mean"; name := "Mean " ++ label;
             stroke := color; dashed := false |};
          {| data := filteredData; dataKey := "p95"; name := "95th " ++ label;
             stroke := color; dashed := true |};
          {| data := filteredData; dataKey := "p5"; name := "5th " ++ label;
             stroke := color; dashed := true |} ]
  end.

(** [labels.map((label, i) => ...colors[i]...)], from index [i] on. *)
Fixpoint groups (series : list JSON) (labels : list string) (i : nat)
  : Settled (list Line) :=
  match labels with
  | [] => Fulfilled []
  | label :: rest =>
      match group series label (nth i colors "undefined") with
      | Rejected t => Rejected t
      | Fulfilled ls =>
          match groups series rest (S i) with
          | Rejected t => Rejected t
          | Fulfilled more => Fulfilled (ls ++ more)%list
          end
      end
  end.

Definition lines (series : list JSON) : Settled (list Line) :=
  groups series scenarios 0.

(** Lines 364 and 422, [(v) => v?.toFixed(4) ?? '–'], on whatever value the
    chart hands it; [None] is [undefined]. *)
Definition formatter (v : option JSON) : Settled string :=
  match v with
  | None | Some JNull => Fulfilled "–"
  | Some (JNum x) => Fulfilled (Num.toFixed 4 x)
  | Some _ => Rejected (Js.typeError "v?.toFixed is not a function")
  end.

End Chart.

Record Screen : Type := mkScreen {
  button : Button;
  errorShown : option string;
  underlyingChart : list Chart.Line;
  pvChart : list Chart.Line
}.

(** The render of the component, which throws when a chart does. *)
Definition render (v : View) : Settled Screen :=
  match Chart.lines (underlyingStats v) with
  | Rejected t => Rejected t
  | Fulfilled underlying =>
      match Chart.lines (pvStats v) with
      | Rejected t => Rejected t
      | Fulfilled pv =>
          Fulfilled {| button := runButton v; errorShown := errorBox v;
                       underlyingChart := underlying; pvChart := pv |}
      end
  end.

(** *** Vocabulary for the render and for the page *)

(** A point that carries a string under [scenario]. *)
Definition isTagged (d : JSON) : bool :=
  match scenarioOf d with
  | Some (JStr _) => true
  | _ => false
  end.

Definition tidy (v : View) : Prop :=
  forallb isTagged (underlyingStats v) = true
  /\ forallb isTagged (pvStats v) = true.

(** The setters of the two series are only ever given tagged points. *)
Definition publishesTagged (c : Cmd) : Prop :=
  match c with
  | SetUnderlyingStats l | SetPvStats l => forallb isTagged l = true
  | _ => True
  end.

(** [ensures C Q m]: every command [m] issues satisfies [C], and every value
    it returns satisfies [Q], however its promises settle. *)
Fixpoint ensures {A} (C : Cmd -> Prop) (Q : A -> Prop) (m : Async A) : Prop :=
  match m with
  | Ret a => Q a
  | Throw _ => True
  | Do c k => C c /\ ensures C Q k
  | AwaitFetch _ k => forall r, ensures C Q (k r)
  | AwaitJson _ k => forall r, ensures C Q (k r)
  end.

Definition bothTagged (acc : list JSON * list JSON) : Prop :=
  forallb isTagged (fst acc) = true /\ forallb isTagged (snd acc) = true.

(** A page whose view is tidy and whose pending runs will keep it so. *)
Definition safePage (p : Page) : Prop :=
  tidy (view p) /\ Forall (ensures publishesTagged (fun _ => True)) (pending p).

(** The lines of a chart that has no data. *)
Definition blankLines : list Chart.Line :=
  match Chart.lines [] with
  | Fulfilled ls => ls
  | Rejected _ => []
  end.

(** Two pages that show the same and hold the same runs. *)
Definition sameRun (p q : Page) : Prop :=
  view p = view q /\ pending p = pending q.

(** What the error box shows for a thrown value. *)
Definition shownFor (t : Thrown) : option string :=
  if String.eqb (messageOf t) "" then None else Some (messageOf t).

Definition isClick (e : Event) : bool :=
  match e with Click => true | _ => false end.
Definition isEdit (e : Event) : bool :=
  match e with Edit _ => true | _ => false end.

(** A form with the Ornstein-Uhlenbeck fields of another. *)
Definition withOu (f g : Form) : Form :=
  {| modelType := modelType f;
     maturity := maturity f; r_dom := r_dom f; r_for := r_for f;
     gbmSpot := gbmSpot f; gbmSigma := gbmSigma f; gbmMu := gbmMu f;
     ouSpot := ouSpot g; ouKappa := ouKappa g; ouTheta := ouTheta g;
     ouSigma := ouSigma g;
     shockParam := shockParam f; shiftPct := shiftPct f |}.

(** A form with the geometric-Brownian fields of another. *)
Definition withGbm (f g : Form) : Form :=
  {| modelType := modelType f;
     maturity := maturity f; r_dom := r_dom f; r_for := r_for f;
     gbmSpot := gbmSpot g; gbmSigma := gbmSigma g; gbmMu := gbmMu g;
     ouSpot := ouSpot f; ouKappa := ouKappa f; ouTheta := ouTheta f;
     ouSigma := ouSigma f;
     shockParam := shockParam f; shiftPct := shiftPct f |}.

(** The scalar a shock multiplies. *)
Definition shocked (f : Form) : float :=
  match shockParam f with
  | spot => baseSpot f
  | vol => baseVol f
  end.

(* ===================================================================== *)
(** ** Facts about strings *)
(* ===================================================================== *)

Module StrFacts.

Lemma split_nonempty (d : ascii -> bool) (s : string) : Str.split d s <> [].
Proof.
  destruct s as [|c s]; simpl; [discriminate|].
  destruct (d c); [discriminate|].
  destruct (Str.split d s); discriminate.
Qed.

Lemma split_clean (d : ascii -> bool) (s : string) :
  Str.forallb (fun c => negb (d c)) s = true -> Str.split d s = [s].
Proof.
  induction s as [|c s IH]; simpl; intros H; [reflexivity|].
  apply andb_true_iff in H as [Hc Hs].
  apply negb_true_iff in Hc. rewrite Hc, (IH Hs). reflexivity.
Qed.

Lemma split_app (d : ascii -> bool) (a : string) (c : ascii) (b : string) :
  d c = true ->
  Str.split d (a ++ String c b) = (Str.split d a ++ Str.split d b)%list.
Proof.
  intros Hc. induction a as [|x a IH]; simpl.
  - rewrite Hc. reflexivity.
  - destruct (d x); rewrite IH; [reflexivity|].
    pose proof (split_nonempty d a) as Hne.
    destruct (Str.split d a); [contradiction|reflexivity].
Qed.

Lemma forallb_app (p : ascii -> bool) (a b : string) :
  Str.forallb p (a ++ b) = Str.forallb p a && Str.forallb p b.
Proof.
  induction a as [|c a IH]; simpl; [reflexivity|].
  rewrite IH, andb_assoc. reflexivity.
Qed.

Lemma forallb_impl (p q : ascii -> bool) (s : string) :
  (forall c, p c = true -> q c = true) ->
  Str.forallb p s = true -> Str.forallb q s = true.
Proof.
  intros Hpq. induction s as [|c s IH]; simpl; [reflexivity|].
  intros H. apply andb_true_iff in H as [Hc Hs].
  rewrite (Hpq c Hc), (IH Hs). reflexivity.
Qed.

Lemma forallb_repeat (p : ascii -> bool) (c : ascii) (n : nat) :
  p c = true -> Str.forallb p (Str.repeat c n) = true.
Proof.
  intros Hc. induction n as [|n IH]; simpl; [reflexivity|].
  rewrite Hc, IH. reflexivity.
Qed.

Lemma forallb_take (p : ascii -> bool) (n : nat) (s : string) :
  Str.forallb p s = true -> Str.forallb p (Str.take n s) = true.
Proof.
  revert s. induction n as [|n IH]; intros [|c s]; simpl; try reflexivity.
  intros H. apply andb_true_iff in H as [Hc Hs].
  rewrite Hc, (IH s Hs). reflexivity.
Qed.

Lemma forallb_drop (p : ascii -> bool) (n : nat) (s : string) :
  Str.forallb p s = true -> Str.forallb p (Str.drop n s) = true.
Proof.
  revert s. induction n as [|n IH]; intros [|c s]; simpl; try tauto.
  intros H. apply andb_true_iff in H as [_ Hs]. exact (IH s Hs).
Qed.

Lemma length_app (a b : string) :
  String.length (a ++ b) = (String.length a + String.length b)%nat.
Proof. induction a as [|c a IH]; simpl; [reflexivity|]. rewrite IH. reflexivity. Qed.

Lemma length_repeat (c : ascii) (n : nat) : String.length (Str.repeat c n) = n.
Proof. induction n as [|n IH]; simpl; [reflexivity|]. rewrite IH. reflexivity. Qed.

Lemma length_drop (n : nat) (s : string) :
  String.length (Str.drop n s) = (String.length s - n)%nat.
Proof.
  revert s. induction n as [|n IH]; intros [|c s]; simpl; try reflexivity.
  apply IH.
Qed.

Lemma take_nonempty (n : nat) (s : string) :
  (0 < n)%nat -> (0 < String.length s)%nat -> Str.take n s <> EmptyString.
Proof. destruct n, s; simpl; intros; try lia; discriminate. Qed.

Lemma digits_of_uint (d : Decimal.uint) :
  Str.forallb Str.isDigit (NilEmpty.string_of_uint d) = true.
Proof. induction d; simpl; try rewrite IHd; reflexivity. Qed.

Lemma digits_ofN (n : N) : Str.forallb Str.isDigit (Str.ofN n) = true.
Proof.
  unfold Str.ofN, NilZero.string_of_uint.
  destruct (N.to_uint n) eqn:E; try reflexivity;
    rewrite <- E; apply digits_of_uint.
Qed.

Lemma length_ofN (n : N) : (0 < String.length (Str.ofN n))%nat.
Proof.
  unfold Str.ofN, NilZero.string_of_uint.
  destruct (N.to_uint n); simpl; lia.
Qed.

Lemma digit_not (c x : ascii) :
  Str.isDigit x = false -> Str.isDigit c = true -> Ascii.eqb c x = false.
Proof.
  intros Hx Hc. destruct (Ascii.eqb c x) eqn:E; [|reflexivity].
  apply Ascii.eqb_eq in E. subst. congruence.
Qed.

Lemma digit_plain (c : ascii) : Str.isDigit c = true -> negb (delimiter c) = true.
Proof.
  intros Hc. unfold delimiter.
  rewrite (digit_not c "?"), (digit_not c "&"); auto.
Qed.

Lemma digit_not_point (c : ascii) :
  Str.isDigit c = true -> negb (Ascii.eqb c ".") = true.
Proof. intros Hc. rewrite (digit_not c "."); auto. Qed.

End StrFacts.

(* ===================================================================== *)
(** ** Facts about the two renderings of a number *)
(* ===================================================================== *)

Module NumFacts.

Import StrFacts.

Create HintDb clean.

Lemma clean_app (a b : string) : clean (a ++ b) = clean a && clean b.
Proof. apply forallb_app. Qed.

Lemma clean_digits (s : string) :
  Str.forallb Str.isDigit s = true -> clean s = true.
Proof. apply forallb_impl, digit_plain. Qed.

Lemma clean_ofN (n : N) : clean (Str.ofN n) = true.
Proof. apply clean_digits, digits_ofN. Qed.

Lemma clean_zeros (n : nat) : clean (Str.repeat "0" n) = true.
Proof. apply forallb_repeat. reflexivity. Qed.

Lemma clean_take (n : nat) (s : string) : clean s = true -> clean (Str.take n s) = true.
Proof. apply forallb_take. Qed.

Lemma clean_drop (n : nat) (s : string) : clean s = true -> clean (Str.drop n s) = true.
Proof. apply forallb_drop. Qed.

#[local] Hint Resolve clean_ofN clean_zeros clean_take clean_drop : clean.

(** Split a goal [clean (a ++ b ++ ...) = true] into its pieces. *)
Ltac pieces :=
  repeat (rewrite clean_app; apply andb_true_intro; split);
  auto with clean.

Lemma clean_layout (ds : string) (n : Z) :
  clean ds = true -> clean (Num.layout ds n) = true.
Proof.
  intros Hds. unfold Num.layout.
  repeat match goal with
         | |- context [if ?b then _ else _] => destruct b
         end; pieces.
Qed.

Lemma clean_positiveToString (m : positive) (e : Z) :
  clean (Num.positiveToString m e) = true.
Proof.
  unfold Num.positiveToString.
  destruct (Num.shortest _ _ _ _ _) as [s n].
  apply clean_layout, clean_ofN.
Qed.

Lemma clean_toString (x : float) : clean (Num.toString x) = true.
Proof.
  unfold Num.toString.
  destruct (Prim2SF x) as [ [|] | [|] | | [|] m e ]; try reflexivity;
    pieces; apply clean_positiveToString.
Qed.

Lemma clean_fixedDigits (f : nat) (q : Q) : clean (Num.fixedDigits f q) = true.
Proof.
  unfold Num.fixedDigits.
  destruct f as [|f]; [apply clean_ofN|].
  destruct (_ <=? _)%nat; pieces; apply clean_take || apply clean_drop; pieces.
Qed.

Lemma clean_toFixed (f : nat) (x : float) : clean (Num.toFixed f x) = true.
Proof.
  unfold Num.toFixed, Num.positiveToFixed.
  destruct (Prim2SF x) as [ [|] | [|] | | [|] m e ]; try reflexivity;
    try apply clean_fixedDigits;
    destruct (Qle_bool _ _); pieces;
    apply clean_positiveToString || apply clean_fixedDigits.
Qed.

(** The digits of [toFixed(4)]: some digits, a point, four digits. *)
Lemma fixedDigits_shape (q : Q) :
  exists a b,
    Num.fixedDigits 4 q = a ++ "." ++ b /\
    a <> "" /\ Str.forallb Str.isDigit a = true /\
    Str.forallb Str.isDigit b = true /\ String.length b = 4%nat.
Proof.
  unfold Num.fixedDigits.
  set (m := Str.ofN _).
  assert (Hm : Str.forallb Str.isDigit m = true) by apply digits_ofN.
  assert (Lm : (0 < String.length m)%nat) by apply length_ofN.
  set (m' := if (String.length m <=? 4)%nat then _ else m).
  assert (Hm' : Str.forallb Str.isDigit m' = true).
  { subst m'. destruct (_ <=? _)%nat; [|exact Hm].
    rewrite forallb_app, Hm, forallb_repeat; reflexivity. }
  assert (Lm' : (5 <= String.length m')%nat).
  { subst m'. destruct (String.length m <=? 4)%nat eqn:E.
    - apply Nat.leb_le in E. rewrite length_app, length_repeat. lia.
    - apply Nat.leb_gt in E. lia. }
  exists (Str.take (String.length m' - 4) m'), (Str.drop (String.length m' - 4) m').
  repeat split.
  - apply take_nonempty; lia.
  - apply forallb_take, Hm'.
  - apply forallb_drop, Hm'.
  - rewrite length_drop. lia.
Qed.

Lemma isFixed_shape (a b : string) :
  a <> "" -> Str.forallb Str.isDigit a = true ->
  Str.forallb Str.isDigit b = true -> String.length b = 4%nat ->
  isFixed 4 (a ++ "." ++ b) = true /\ isFixed 4 ("-" ++ a ++ "." ++ b) = true.
Proof.
  intros Ha Da Db Lb.
  assert (Hsplit : Str.split (Ascii.eqb ".") (a ++ "." ++ b) = [a; b]).
  { change (a ++ "." ++ b) with (a ++ String "." b).
    rewrite split_app by reflexivity.
    rewrite !split_clean; [reflexivity| |].
    - eapply forallb_impl; [|exact Db].
      intros c Hc. rewrite Ascii.eqb_sym. now apply digit_not_point.
    - eapply forallb_impl; [|exact Da].
      intros c Hc. rewrite Ascii.eqb_sym. now apply digit_not_point. }
  assert (Hok : negb (String.eqb a "") && Str.forallb Str.isDigit a
                && Nat.eqb (String.length b) 4 && Str.forallb Str.isDigit b = true).
  { rewrite Da, Db, Lb. destruct a; [contradiction|reflexivity]. }
  split.
  - unfold isFixed. destruct a as [|c a]; [contradiction|].
    simpl in Da. apply andb_true_iff in Da as [Dc Da].
    change (String c a ++ "." ++ b) with (String c (a ++ "." ++ b)).
    cbv beta iota. rewrite (digit_not c "-") by auto.
    change (String c (a ++ "." ++ b)) with (String c a ++ "." ++ b).
    rewrite Hsplit. simpl in Hok |- *. rewrite Dc in Hok |- *. exact Hok.
  - unfold isFixed.
    change ("-" ++ a ++ "." ++ b) with (String "-" (a ++ "." ++ b)).
    cbv beta iota. rewrite Ascii.eqb_refl, Hsplit. exact Hok.
Qed.

(** In its positional range [toFixed(4)] yields four decimals. *)
Lemma toFixed_isFixed (x : float) :
  fixedRange x = true -> isFixed 4 (Num.toFixed 4 x) = true.
Proof.
  unfold fixedRange, Num.toFixed, Num.positiveToFixed, Num.Qltb.
  destruct (Prim2SF x) as [ s | s | | s m e ]; try discriminate.
  - intros _. destruct (fixedDigits_shape 0) as (a & b & E & Ha & Da & Db & Lb).
    rewrite E. now apply isFixed_shape.
  - intros H. apply negb_true_iff in H. rewrite H.
    destruct (fixedDigits_shape (Num.mag m e)) as (a & b & E & Ha & Da & Db & Lb).
    rewrite E. destruct s; now apply isFixed_shape.
Qed.

End NumFacts.

(* ===================================================================== *)
(** ** The request string, component by component *)
(* ===================================================================== *)

Module UrlFacts.

Import StrFacts NumFacts.

Lemma append_assoc (a b c : string) : (a ++ b) ++ c = a ++ (b ++ c).
Proof. induction a as [|x a IH]; simpl; [reflexivity|]. rewrite IH. reflexivity. Qed.

Lemma split_join (pieces : list string) :
  pieces <> [] -> forallb clean pieces = true ->
  Str.split delimiter (Str.join "&" pieces) = pieces.
Proof.
  induction pieces as [|p rest IH]; [congruence|]. intros _ H.
  simpl in H. apply andb_true_iff in H as [Hp Hrest].
  destruct rest as [|q rest].
  - simpl. now apply split_clean.
  - change (Str.join "&" (p :: q :: rest))
      with (p ++ String "&" (Str.join "&" (q :: rest))).
    rewrite split_app by reflexivity.
    rewrite (split_clean _ p Hp), IH; [reflexivity|discriminate|exact Hrest].
Qed.

Lemma requestUrl_join (base : string) (f : Form) (i : nat) :
  requestUrl base f i
  = endpoint base ++ String "?" (Str.join "&" (parameters f i)).
Proof.
  unfold requestUrl, endpoint, parameters.
  destruct (modelType f); cbn [Str.join List.app modelName];
    repeat rewrite append_assoc; reflexivity.
Qed.

Lemma parameters_clean (f : Form) (i : nat) :
  forallb clean (parameters f i) = true.
Proof.
  unfold parameters.
  destruct (modelType f); cbn [List.forallb List.app modelName];
    rewrite ?clean_app, ?clean_toString, ?clean_toFixed; reflexivity.
Qed.

Lemma parameters_nonempty (f : Form) (i : nat) : parameters f i <> [].
Proof. unfold parameters. discriminate. Qed.

(** The query of a request is what the endpoint's own text contributes,
    followed by the components of [parameters]. *)
Lemma query_requestUrl (base : string) (f : Form) (i : nat) :
  query (requestUrl base f i)
  = (query (endpoint base) ++ parameters f i)%list.
Proof.
  unfold query. rewrite requestUrl_join, split_app by reflexivity.
  rewrite split_join by (apply parameters_nonempty || apply parameters_clean).
  pose proof (split_nonempty delimiter (endpoint base)) as Hne.
  destruct (Str.split delimiter (endpoint base)); [contradiction|reflexivity].
Qed.

Lemma In_query (base : string) (f : Form) (i : nat) (c : string) :
  In c (parameters f i) -> In c (query (requestUrl base f i)).
Proof. intros H. rewrite query_requestUrl. apply in_or_app. now right. Qed.

End UrlFacts.

Module RunFacts.

Lemma taggedSeries_spec (data : JSON) (key label : string) :
  taggedSeries data key label =
  match seriesOf data key with
  | Some xs => Fulfilled (map (tag label) xs)
  | None => Rejected (noSeries data key)
  end.
Proof.
  unfold noSeries, seriesOf, taggedSeries, Js.member, Js.arrayMap.
  destruct data; try reflexivity.
  destruct (Js.lookup key props) as [[]|]; reflexivity.
Qed.

Ltac evaluate :=
  cbn [exec bind catch finally forLoop scenario fetch readJson settle before
       runSensitivity setLoading setErrorMsg setUnderlyingStats setPvStats
       consoleError exec_cmd apply logged
       completion final requests seen console
       loading errorMsg underlyingStats pvStats
       List.app negb fst snd].

Ltac leaf := evaluate; repeat split; try reflexivity; repeat constructor.

Ltac call k :=
  evaluate;
  match goal with
  | |- context [settle (?w k ?u)] => destruct (w k u) as [?res|?t]; [|solve [leaf]]
  end;
  evaluate;
  match goal with
  | |- context [ok ?r] =>
      destruct (ok r); [|solve [leaf]];
      evaluate; destruct (json r) as [?data|?t]; [|solve [leaf]]
  end;
  evaluate; rewrite !taggedSeries_spec;
  match goal with
  | |- context [seriesOf ?d "underlyingStats"] =>
      destruct (seriesOf d "underlyingStats") as [?us|]; [|solve [leaf]];
      evaluate;
      destruct (seriesOf d "pvStats") as [?ps|]; [|solve [leaf]]
  end;
  evaluate.

Lemma run_outcome (w : World) (base : string) (f : Form) (n : nat) (v : View) :
  let o := exec w (runSensitivity base f) n v in
  let url := requestUrl base f in
  let label := labelAt (shiftPct f) in
  completion o = Fulfilled tt /\
  Forall (eq runningView) (seen o) /\
  match answer w base f n 0 with
  | Rejected t =>
      final o = failedView t /\ console o = [t] /\ requests o = [url 0%nat]
  | Fulfilled d0 =>
      match answer w base f n 1 with
      | Rejected t =>
          final o = failedView t /\ console o = [t]
          /\ requests o = [url 0%nat; url 1%nat]
      | Fulfilled d1 =>
          match answer w base f n 2 with
          | Rejected t =>
              final o = failedView t /\ console o = [t]
              /\ requests o = [url 0%nat; url 1%nat; url 2%nat]
          | Fulfilled d2 =>
              final o
              = publishedView
                  (aggregate [(label 0%nat, d0); (label 1%nat, d1); (label 2%nat, d2)])
              /\ console o = []
              /\ requests o = [url 0%nat; url 1%nat; url 2%nat]
          end
      end
  end.
Proof.
  intros o url label. subst o url label. unfold answer, callResult.
  rewrite Nat.add_0_r, Nat.add_1_r, (Nat.add_comm n 2). cbn [Nat.add].
  unfold runSensitivity. evaluate.
  call n; call (S n); call (S (S n)).
  evaluate. unfold publishedView, aggregate. cbn [fold_left fst snd List.app].
  repeat split; try reflexivity; repeat constructor.
Qed.
(** One call on its own. *)
Lemma scenario_outcome (w : World) (base : string) (f : Form) (i : nat)
    (us0 ps0 : list JSON) (n : nat) (v : View) :
  let o := exec w (scenario base f i (us0, ps0)) n v in
  let label := labelAt (shiftPct f) i in
  completion o
  = match callResult label (w n (requestUrl base f i)) with
    | Fulfilled (us, ps) =>
        Fulfilled (us0 ++ map (tag label) us, ps0 ++ map (tag label) ps)%list
    | Rejected t => Rejected t
    end
  /\ final o = v /\ requests o = [requestUrl base f i] /\ console o = [].
Proof.
  intros o label. subst o label. unfold callResult, scenario.
  evaluate.
  destruct (w n (requestUrl base f i)) as [res|t]; [|leaf].
  evaluate. destruct (ok res); [|leaf].
  evaluate. destruct (json res) as [data|t]; [|leaf].
  evaluate. rewrite !taggedSeries_spec.
  destruct (seriesOf data "underlyingStats") as [us|]; [|leaf].
  evaluate. destruct (seriesOf data "pvStats") as [ps|]; leaf.
Qed.

Lemma noSeries_typeError (data : JSON) (key : string) :
  seriesOf data key = None -> exists message, noSeries data key = Js.typeError message.
Proof.
  unfold noSeries, seriesOf, taggedSeries, Js.member, Js.arrayMap.
  destruct data; try (intros _; eexists; reflexivity).
  destruct (Js.lookup key props) as [[]|]; intros H;
    try discriminate; eexists; reflexivity.
Qed.

End RunFacts.

(* ===================================================================== *)
(** ** The page never holds two runs *)
(* ===================================================================== *)

Module PageFacts.

Lemma quiet_bind {A B} (m : Async A) (f : A -> Async B) :
  quiet m -> (forall a, quiet (f a)) -> quiet (bind m f).
Proof.
  intros Hm Hf. induction m as [a|t|c k IH|url k IH|res k IH]; cbn in *; auto.
  destruct c; auto.
Qed.

Lemma quiet_catch {A} (m : Async A) (h : Thrown -> Async A) :
  quiet m -> (forall t, quiet (h t)) -> quiet (catch m h).
Proof.
  intros Hm Hh. induction m as [a|t|c k IH|url k IH|res k IH]; cbn in *; auto.
  destruct c; auto.
Qed.

Lemma quiet_settle {A} (r : Settled A) : quiet (settle r).
Proof. destruct r; exact I. Qed.

Lemma quiet_forLoop {T} (body : nat -> T -> Async T) :
  (forall i acc, quiet (body i acc)) ->
  forall count from acc, quiet (forLoop count from body acc).
Proof.
  intros Hbody. induction count as [|count IH]; intros from acc; cbn; [exact I|].
  apply quiet_bind; auto.
Qed.

Lemma quiet_scenario (base : string) (f : Form) (i : nat)
    (acc : list JSON * list JSON) : quiet (scenario base f i acc).
Proof.
  destruct acc as [us0 ps0]. unfold scenario, fetch, readJson.
  cbn [bind quiet]. intros r.
  apply quiet_bind; [apply quiet_settle|]. intros res.
  destruct (negb (ok res)); [exact I|].
  cbn [bind quiet]. intros r'.
  repeat (apply quiet_bind; [apply quiet_settle|]; intros ?).
  exact I.
Qed.

(** A quiet body under [finally { setLoading(false) }] keeps the flag up
    until it ends. *)
Lemma steady_finally {A} (m : Async A) :
  quiet m -> steady true (finally m (setLoading false)).
Proof.
  induction m as [a|t|c k IH|url k IH|res k IH]; cbn; intros Hm; auto.
  destruct c; cbn in *; auto; contradiction.
Qed.

Lemma steady_run (base : string) (f : Form) (l : bool) :
  steady l (runSensitivity base f).
Proof.
  unfold runSensitivity. cbn [bind setLoading setErrorMsg setUnderlyingStats
                             setPvStats exec_cmd steady].
  apply steady_finally, quiet_catch.
  - apply quiet_bind; [apply quiet_forLoop, quiet_scenario|].
    intros [us ps]. exact I.
  - intros t. exact I.
Qed.

Lemma advance_steady (m : Async unit) (v : View) :
  steady (loading v) m ->
  match advance m v with
  | (v', []) => loading v' = false
  | (v', [t]) => loading v' = true /\ steady true t
  | _ => False
  end.
Proof.
  revert v. induction m as [a|t|c k IH|url k IH|res k IH]; intros v H; cbn in *.
  - exact H.
  - exact H.
  - apply IH. destruct c; exact H.
  - destruct H as [Hl Hk]. split; [exact Hl|]. split; [reflexivity|exact Hk].
  - destruct H as [Hl Hk]. split; [exact Hl|]. split; [reflexivity|exact Hk].
Qed.

Lemma resume_orderly (p : Page) (t m : Async unit) :
  pending p = [t] -> loading (view p) = true -> steady true m ->
  orderly (resume p 0 m).
Proof.
  intros Hp Hl Hm. unfold resume, orderly.
  rewrite <- Hl in Hm. apply advance_steady in Hm.
  destruct (advance m (view p)) as [v' susp]. rewrite Hp. cbn.
  destruct susp as [|t' [|]]; auto.
Qed.

Lemma nth_error_single {A} (x : A) (task : nat) :
  nth_error [x] task = match task with O => Some x | S _ => None end.
Proof. destruct task as [|[|task]]; reflexivity. Qed.

Lemma step_orderly (base : string) (p : Page) (e : Event) :
  orderly p -> orderly (step base p e).
Proof.
  intros Hp. pose proof Hp as Hp0. unfold orderly in Hp.
  destruct e as [|f|task r|task]; cbn [step].
  - destruct (loading (view p)) eqn:Hl; [exact Hp0|].
    pose proof (steady_run base (form p) false) as Hs.
    rewrite <- Hl in Hs. apply advance_steady in Hs.
    destruct (advance (runSensitivity base (form p)) (view p)) as [v' susp].
    unfold orderly. cbn [pending view].
    destruct (pending p) as [|t [|]]; [|destruct Hp; congruence|contradiction].
    destruct susp as [|t' [|]]; auto.
  - exact Hp.
  - destruct (pending p) as [|t [|]] eqn:Ep; try contradiction.
    + destruct task; exact Hp0.
    + rewrite nth_error_single. destruct Hp as [Hl Hs].
      destruct task; [|exact Hp0].
      destruct t; try exact Hp0.
      apply (resume_orderly p _ _ Ep Hl). apply Hs.
  - destruct (pending p) as [|t [|]] eqn:Ep; try contradiction.
    + destruct task; exact Hp0.
    + rewrite nth_error_single. destruct Hp as [Hl Hs].
      destruct task; [|exact Hp0].
      destruct t; try exact Hp0.
      apply (resume_orderly p _ _ Ep Hl). apply Hs.
Qed.

(** The two readings of a run agree: settled event by event on the page, a
    run leaves the view [exec] computes, and nothing pending. *)
Lemma schedule_exec (base : string) (w : World) (fm : Form) (m : Async unit)
    (n : nat) (v : View) :
  fold_left (step base) (schedule w m n)
    {| form := fm; view := fst (advance m v); pending := snd (advance m v) |}
  = {| form := fm; view := final (exec w m n v); pending := [] |}.
Proof.
  revert n v. induction m as [a|t|c k IH|url k IH|res k IH]; intros n v;
    cbn [schedule advance exec final before fst snd fold_left].
  - reflexivity.
  - reflexivity.
  - apply IH.
  - cbn [step pending nth_error]. unfold resume. cbn [view form pending remove_nth].
    rewrite <- (IH (w n url) (S n) v).
    destruct (advance (k (w n url)) v) as [v' susp]. reflexivity.
  - cbn [step pending nth_error]. unfold resume. cbn [view form pending remove_nth].
    rewrite <- (IH (json res) n v).
    destruct (advance (k (json res)) v) as [v' susp]. reflexivity.
Qed.

Lemma click_then_settle (base : string) (w : World) (p : Page) (n : nat) :
  loading (view p) = false -> pending p = [] ->
  fold_left (step base) (Click :: schedule w (runSensitivity base (form p)) n) p
  = {| form := form p;
       view := final (exec w (runSensitivity base (form p)) n (view p));
       pending := [] |}.
Proof.
  intros Hl Hp. cbn [fold_left step]. rewrite Hl, Hp.
  rewrite <- (schedule_exec base w (form p)).
  destruct (advance (runSensitivity base (form p)) (view p)) as [v' susp].
  reflexivity.
Qed.

Lemma play_orderly (base : string) (events : list Event) :
  orderly (play base events).
Proof.
  unfold play.
  assert (H : orderly initialPage) by reflexivity.
  revert H. generalize initialPage.
  induction events as [|e events IH]; intros p Hp; cbn; [exact Hp|].
  apply IH, step_orderly, Hp.
Qed.

End PageFacts.

(* ===================================================================== *)
(** ** A fact of binary64 arithmetic *)
(* ===================================================================== *)

Module FloatFacts.





End FloatFacts.

(* ===================================================================== *)
(** ** Scenario planning *)
(* ===================================================================== *)

(** C1.  For each of the three magnitudes the plan has exactly three
    scenarios, in the order Down, Base, Up: the factors are
    [1 - m/100], [1], [1 + m/100] as JavaScript computes them (the doubles
    that print as 0.9/1/1.1, 0.8/1/1.2, 0.5/1/1.5) and the labels are
    "Down -m%", "Base 0%", "Up +m%".  Both lists are functions of the
    magnitude alone. *)
Theorem plan_three_scenarios : forall p : ShiftPct,
  let m := match p with Pct10 => "10" | Pct20 => "20" | Pct50 => "50" end in
  shiftFactors p
  = [ (1 - pctNumber p / 100)%float; 1%float; (1 + pctNumber p / 100)%float ]
  /\ shiftFactors p
     = match p with
       | Pct10 => [0.9; 1; 1.1]%float
       | Pct20 => [0.8; 1; 1.2]%float
       | Pct50 => [0.5; 1; 1.5]%float
       end
  /\ scenarioLabels p = [ "Down -" ++ m ++ "%"; "Base 0%"; "Up +" ++ m ++ "%" ]
  /\ List.length (shiftFactors p) = 3%nat
  /\ List.length (scenarioLabels p) = 3%nat.
Proof.
  intros p. destruct p; cbv zeta; repeat split; vm_compute; reflexivity.
Qed.

(* ===================================================================== *)
(** ** Effective parameters and the request string *)
(* ===================================================================== *)

Import UrlFacts.



(** With the default form the request of the Down scenario reads
    "maturity=1". *)
Lemma maturity_not_fixed :
  valueOf "maturity" (query (requestUrl (API_BASE None) initialForm 0)) = Some "1"
  /\ isFixed 4 "1" = false.
Proof. split; vm_compute; reflexivity. Qed.

(** C4, as the code has it.  The shocked spot and the volatility go through
    [toFixed(4)], which gives exactly four decimals for every finite value
    of magnitude below 10^21; maturity, r_dom, r_for, kappa and theta are
    interpolated as they are, in the shortest notation of the number. *)
Theorem request_number_formats : forall (base : string) (f : Form) (i : nat),
  fixedRange (currentSpot f i) = true ->
  fixedRange (currentVol f i) = true ->
  let q := query (requestUrl base f i) in
  let sigma := match modelType f with gbm => "sigma_gbm=" | ou => "sigma_ou=" end in
  In ("spot=" ++ Num.toFixed 4 (currentSpot f i)) q
  /\ isFixed 4 (Num.toFixed 4 (currentSpot f i)) = true
  /\ In (sigma ++ Num.toFixed 4 (currentVol f i)) q
  /\ isFixed 4 (Num.toFixed 4 (currentVol f i)) = true
  /\ In ("maturity=" ++ Num.toString (maturity f)) q
  /\ In ("r_dom=" ++ Num.toString (r_dom f)) q
  /\ In ("r_for=" ++ Num.toString (r_for f)) q
  /\ match modelType f with
     | gbm => True
     | ou =>
         In ("kappa=" ++ Num.toString (ouKappa f)) q
         /\ In ("theta=" ++ Num.toString (ouTheta f)) q
     end.
Proof.
  intros base f i Hs Hv q sigma. subst q sigma.
  repeat match goal with |- _ /\ _ => split end;
    try (apply NumFacts.toFixed_isFixed; assumption);
    try (apply In_query; unfold parameters;
         destruct (modelType f); cbn [In List.app]; tauto).
  destruct (modelType f) eqn:E; [exact I|].
  split; apply In_query; unfold parameters; rewrite E; cbn [In List.app]; tauto.
Qed.

Lemma request_number_formats_witness :
  In "spot=0.8800" (query (requestUrl (API_BASE None) initialForm 0))
  /\ In "sigma_gbm=0.1500" (query (requestUrl (API_BASE None) initialForm 0))
  /\ In "maturity=1" (query (requestUrl (API_BASE None) initialForm 0)).
Proof.
  pose proof (request_number_formats (API_BASE None) initialForm 0
                ltac:(vm_compute; reflexivity) ltac:(vm_compute; reflexivity))
    as (Hspot & _ & Hsigma & _ & Hmat & _).
  repeat split; [exact Hspot|exact Hsigma|exact Hmat].
Defined.

(** The request of the example ends in "theta=1.1". *)
Lemma theta_not_padded :
  ~ In "theta=1.10" (query (requestUrl (API_BASE None) ouForm 2)).
Proof.
  vm_compute. intros H.
  repeat (destruct H as [H|H]; [discriminate H|]). exact H.
Qed.

(** C5, as the code has it.  For the Ornstein-Uhlenbeck model with spot
    1.10, kappa 3.0, theta 1.10 and sigma 0.12, a volatility shock of
    magnitude 10 sends, in the Up scenario, sigma_ou=0.1320, kappa=3,
    theta=1.1 and spot=1.1000. *)
Theorem ou_vol_up_request : forall (base : string) (f : Form),
  modelType f = ou ->
  ouSpot f = 1.10%float -> ouKappa f = 3.0%float ->
  ouTheta f = 1.10%float -> ouSigma f = 0.12%float ->
  shockParam f = vol -> shiftPct f = Pct10 ->
  let q := query (requestUrl base f 2) in
  In "sigma_ou=0.1320" q /\ In "kappa=3" q /\ In "theta=1.1" q
  /\ In "spot=1.1000" q /\ In "model=ou" q.
Proof.
  intros base f Hm Hspot Hk Ht Hsig Hshock Hpct q. subst q.
  repeat split; apply In_query;
    unfold parameters, currentSpot, currentVol, baseSpot, baseVol;
    rewrite Hm, Hshock, Hpct, ?Hspot, ?Hk, ?Ht, ?Hsig;
    cbn [In List.app modelName].
  - do 7 right. left. vm_compute. reflexivity.
  - do 8 right. left. vm_compute. reflexivity.
  - do 9 right. left. vm_compute. reflexivity.
  - do 6 right. left. vm_compute. reflexivity.
  - left. reflexivity.
Qed.

Lemma ou_vol_up_request_witness :
  In "sigma_ou=0.1320" (query (requestUrl (API_BASE None) ouForm 2))
  /\ In "theta=1.1" (query (requestUrl (API_BASE None) ouForm 2)).
Proof.
  pose proof (ou_vol_up_request (API_BASE None) ouForm
                eq_refl eq_refl eq_refl eq_refl eq_refl eq_refl eq_refl)
    as (Hsigma & _ & Htheta & _).
  split; [exact Hsigma|exact Htheta].
Defined.

(* ===================================================================== *)
(** ** One call, and the run as a whole *)
(* ===================================================================== *)

Import RunFacts.

Lemma startsWith_app (a b : string) : Str.startsWith (a ++ b) a = true.
Proof.
  induction a as [|c a IH]; simpl; [reflexivity|].
  rewrite Ascii.eqb_refl. exact IH.
Qed.

Lemma includes_startsWith (s sub : string) :
  Str.startsWith s sub = true -> Str.includes s sub = true.
Proof. intros H. destruct s; simpl; rewrite H; reflexivity. Qed.

Lemma includes_middle (a b c : string) : Str.includes (a ++ b ++ c) b = true.
Proof.
  induction a as [|x a IH].
  - apply includes_startsWith, (startsWith_app b c).
  - change (String x a ++ b ++ c) with (String x (a ++ b ++ c)).
    cbn [Str.includes]. rewrite IH. apply orb_true_r.
Qed.

(** A body whose points lack the declared fields is taken as it is. *)
Lemma odd_points_accepted :
  conforms oddBody = false
  /\ exists us ps,
       completion (exec oddService (scenario (API_BASE None) initialForm 0 ([], []))
                     0 initialView)
       = Fulfilled (us, ps)
       /\ List.length us = 2%nat /\ List.length ps = 1%nat.
Proof.
  split; [reflexivity|].
  do 2 eexists. split; [vm_compute; reflexivity|split; reflexivity].
Qed.

(** C6, as the code has it.  A scenario call fails with the rejection of
    [fetch] when the network fails, with an error carrying the scenario
    label and the status code when the status is not in 200-299, with the
    rejection of [res.json()] when the body is not JSON, and with a
    TypeError when the body lacks one of the arrays [underlyingStats] and
    [pvStats]; in every other case it succeeds and pushes the points of both
    arrays, tagged, whatever fields the points have. *)
Theorem scenario_call_outcome :
  forall (w : World) (base : string) (f : Form) (i : nat)
         (us0 ps0 : list JSON) (n : nat) (v : View),
  let label := labelAt (shiftPct f) i in
  completion (exec w (scenario base f i (us0, ps0)) n v)
  = match w n (requestUrl base f i) with
    | Rejected t => Rejected t
    | Fulfilled res =>
        if ok res then
          match json res with
          | Rejected t => Rejected t
          | Fulfilled data =>
              match seriesOf data "underlyingStats", seriesOf data "pvStats" with
              | Some us, Some ps =>
                  Fulfilled (us0 ++ map (tag label) us, ps0 ++ map (tag label) ps)%list
              | None, _ => Rejected (noSeries data "underlyingStats")
              | Some _, None => Rejected (noSeries data "pvStats")
              end
          end
        else
          Rejected (ErrorObj "Error"
                      ("Scenario " ++ label ++ " failed: " ++ Str.ofN (status res)))
    end
  /\ forall (data : JSON) (key : string),
       match seriesOf data key with
       | Some _ => True
       | None => exists message, noSeries data key = Js.typeError message
       end.
Proof.
  intros w base f i us0 ps0 n v label. subst label. split.
  - destruct (scenario_outcome w base f i us0 ps0 n v) as [H _].
    cbv zeta in H. rewrite H. unfold callResult, statusError.
    destruct (w n (requestUrl base f i)) as [res|t]; [|reflexivity].
    destruct (ok res); [|reflexivity].
    destruct (json res) as [data|t]; [|reflexivity].
    destruct (seriesOf data "underlyingStats"), (seriesOf data "pvStats");
      reflexivity.
  - intros data key. destruct (seriesOf data key) eqn:E; [exact I|].
    now apply noSeries_typeError.
Qed.

(** When the network fails at the second call the message shown is that of
    the failure, which does not name the scenario. *)
Lemma network_failure_unlabelled :
  errorMsg (final (exec networkDownAtSecond
                     (runSensitivity (API_BASE None) initialForm) 0 initialView))
  = Some "Failed to fetch"
  /\ labelAt (shiftPct initialForm) 1 = "Base 0%"
  /\ Str.includes "Failed to fetch" "Base 0%" = false.
Proof. repeat split; vm_compute; reflexivity. Qed.

(** C3, as the code has it.  From any view, a run first clears the message
    and both series, and that is all the page shows while the run waits.
    The three calls are made one after the other; at the first that fails
    no further call is made, the run ends with [loading] false, the message
    of that one error, which is also the only thing logged, and both series
    still empty.  The message names the scenario and the status when the
    failure is a status outside 200-299.  Only when all three calls succeed
    are the series published, all at once. *)
Theorem fail_fast_all_or_nothing :
  forall (w : World) (base : string) (f : Form) (n : nat) (v : View),
  let o := exec w (runSensitivity base f) n v in
  let url := requestUrl base f in
  let label := labelAt (shiftPct f) in
  completion o = Fulfilled tt
  /\ Forall (eq runningView) (seen o)
  /\ match answer w base f n 0 with
     | Rejected t =>
         final o = failedView t /\ console o = [t] /\ requests o = [url 0%nat]
     | Fulfilled d0 =>
         match answer w base f n 1 with
         | Rejected t =>
             final o = failedView t /\ console o = [t]
             /\ requests o = [url 0%nat; url 1%nat]
         | Fulfilled d1 =>
             match answer w base f n 2 with
             | Rejected t =>
                 final o = failedView t /\ console o = [t]
                 /\ requests o = [url 0%nat; url 1%nat; url 2%nat]
             | Fulfilled d2 =>
                 final o
                 = publishedView
                     (aggregate
                        [(label 0%nat, d0); (label 1%nat, d1); (label 2%nat, d2)])
                 /\ console o = []
                 /\ requests o = [url 0%nat; url 1%nat; url 2%nat]
             end
         end
     end
  /\ forall (l : string) (res : Response),
       callResult l (Fulfilled res)
       = (if ok res then callResult l (Fulfilled res)
          else Rejected (statusError l res))
       /\ Str.includes (messageOf (statusError l res)) l = true.
Proof.
  intros w base f n v o url label.
  destruct (run_outcome w base f n v) as (Hc & Hs & Hrun).
  repeat split; try assumption.
  - unfold callResult. destruct (ok res); reflexivity.
  - unfold statusError, messageOf. apply includes_middle.
Qed.

(* ===================================================================== *)
(** ** Aggregation *)
(* ===================================================================== *)

Lemma aggregate_from (pairs : list (string * (list JSON * list JSON)))
    (acc : list JSON * list JSON) :
  fold_left
    (fun acc pair =>
       let '(label, (us, ps)) := pair in
       (fst acc ++ map (tag label) us, snd acc ++ map (tag label) ps)%list)
    pairs acc
  = (fst acc ++ flat_map underlyingOf pairs,
     snd acc ++ flat_map presentValueOf pairs)%list.
Proof.
  revert acc. induction pairs as [|[label [us ps]] pairs IH]; intros [u p]; cbn.
  - rewrite !app_nil_r. reflexivity.
  - rewrite IH. cbn. rewrite <- !app_assoc. reflexivity.
Qed.

Lemma lookup_assign (key : string) (v : JSON) (props : list (string * JSON)) :
  Js.lookup key (Js.assign key v props) = Some v.
Proof.
  induction props as [|[k old] props IH]; cbn.
  - rewrite String.eqb_refl. reflexivity.
  - destruct (String.eqb k key) eqn:E; cbn; rewrite E; [reflexivity|exact IH].
Qed.

Lemma scenarioOf_tag (label : string) (p : JSON) :
  scenarioOf (tag label p) = Some (JStr label).
Proof. apply lookup_assign. Qed.

Lemma lookup_assign_other (key other : string) (v : JSON)
    (props : list (string * JSON)) :
  String.eqb key other = false ->
  Js.lookup other (Js.assign key v props) = Js.lookup other props.
Proof.
  intros Hne. induction props as [|[k old] props IH]; cbn.
  - rewrite Hne. reflexivity.
  - destruct (String.eqb k key) eqn:E; cbn.
    + apply String.eqb_eq in E. subst k. rewrite Hne. reflexivity.
    + destruct (String.eqb k other); [reflexivity|exact IH].
Qed.

Lemma length_tagged (series : list JSON * list JSON -> list JSON)
    (pairs : list (string * (list JSON * list JSON))) :
  List.length (flat_map (taggedWith series) pairs)
  = list_sum (map (fun pair => List.length (series (snd pair))) pairs).
Proof.
  induction pairs as [|pair pairs IH]; cbn; [reflexivity|].
  unfold taggedWith at 1. rewrite length_app, length_map, IH. reflexivity.
Qed.

Lemma scenario_tagged (series : list JSON * list JSON -> list JSON)
    (pairs : list (string * (list JSON * list JSON))) :
  map scenarioOf (flat_map (taggedWith series) pairs)
  = flat_map (fun pair => map (fun _ => Some (JStr (fst pair))) (series (snd pair)))
      pairs.
Proof.
  induction pairs as [|pair pairs IH]; cbn; [reflexivity|].
  unfold taggedWith at 1. rewrite map_app, map_map, IH. f_equal.
  apply map_ext. intros p. apply scenarioOf_tag.
Qed.

Lemma assign_fresh (key : string) (v : JSON) (props : list (string * JSON)) :
  Js.lookup key props = None ->
  Js.assign key v props = (props ++ [(key, v)])%list.
Proof.
  induction props as [|[k old] props IH]; cbn; [reflexivity|].
  destruct (String.eqb k key); [discriminate|].
  intros H. rewrite (IH H). reflexivity.
Qed.

Lemma lookup_indexed {A} (f : A -> JSON) (i : N) (xs : list A) :
  Js.lookup "scenario" (Js.indexed f i xs) = None.
Proof.
  revert i. induction xs as [|x xs IH]; intros i; cbn [Js.indexed Js.lookup];
    [reflexivity|].
  destruct (String.eqb (Str.ofN i) "scenario") eqn:E; [|apply IH].
  apply String.eqb_eq in E. pose proof (StrFacts.digits_ofN i) as H.
  rewrite E in H. discriminate H.
Qed.

Lemma indexed_values {A} (f : A -> JSON) (i : N) (xs : list A) :
  map snd (Js.indexed f i xs) = map f xs.
Proof.
  revert i. induction xs as [|x xs IH]; intros i; cbn; [reflexivity|].
  rewrite IH. reflexivity.
Qed.

(** C8.  Aggregation is total and keeps the order: nothing in, nothing out;
    for any list of labelled bodies each output series is the
    concatenation, in the order supplied, of the bodies' points in their own
    order, each point with its fields as received and its [scenario] set to
    the label of its pair; so the length is the sum of the lengths.  The
    series a successful run publishes are the aggregate of its three
    answers in the order Down, Base, Up.  An output point is its input
    point: an object keeps every field under its key and value, a
    [scenario] it came with being overwritten and one it lacked being added
    at the end; an array keeps its elements and a string its code units;
    [null], a boolean or a number has nothing to keep. *)
Theorem aggregate_order_preserving :
  aggregate [] = ([], [])
  /\ (forall pairs,
        aggregate pairs = (flat_map underlyingOf pairs, flat_map presentValueOf pairs)
        /\ List.length (fst (aggregate pairs))
           = list_sum (map (fun pair => List.length (fst (snd pair))) pairs)
        /\ List.length (snd (aggregate pairs))
           = list_sum (map (fun pair => List.length (snd (snd pair))) pairs)
        /\ map scenarioOf (fst (aggregate pairs))
           = flat_map (fun pair => map (fun _ => Some (JStr (fst pair))) (fst (snd pair)))
               pairs
        /\ map scenarioOf (snd (aggregate pairs))
           = flat_map (fun pair => map (fun _ => Some (JStr (fst pair))) (snd (snd pair)))
               pairs)
  /\ (forall label p key,
        Js.lookup key (Js.assign "scenario" (JStr label) (Js.ownProps p))
        = if String.eqb "scenario" key then Some (JStr label)
          else Js.lookup key (Js.ownProps p))
  /\ (forall (w : World) (base : string) (f : Form) (n : nat) (v : View),
        let o := exec w (runSensitivity base f) n v in
        let label := labelAt (shiftPct f) in
        match answer w base f n 0, answer w base f n 1, answer w base f n 2 with
        | Fulfilled d0, Fulfilled d1, Fulfilled d2 =>
            (underlyingStats (final o), pvStats (final o))
            = aggregate [(label 0%nat, d0); (label 1%nat, d1); (label 2%nat, d2)]
        | _, _, _ => True
        end)
  /\ (forall (label : string) (props : list (string * JSON)) (key : string),
        fieldOf key (tag label (JObj props))
        = if String.eqb "scenario" key then Some (JStr label)
          else Js.lookup key props)
  /\ (forall (label : string) (props : list (string * JSON)),
        match Js.lookup "scenario" props with
        | None => tag label (JObj props) = JObj (props ++ [("scenario", JStr label)])
        | Some _ => True
        end)
  /\ (forall (label : string) (xs : list JSON),
        exists props,
          tag label (JArr xs) = JObj (props ++ [("scenario", JStr label)])
          /\ map snd props = xs)
  /\ (forall (label s : string),
        exists props,
          tag label (JStr s) = JObj (props ++ [("scenario", JStr label)])
          /\ map snd props = map (fun u => JStr (Utf.unitString u)) (Utf.units s))
  /\ (forall (label : string) (p : JSON),
        match p with
        | JNull | JBool _ | JNum _ => tag label p = JObj [("scenario", JStr label)]
        | _ => True
        end).
Proof.
  split; [reflexivity|].
  split; [|split; [|split; [|split; [|split; [|split; [|split]]]]]].
  - intros pairs.
    assert (E : aggregate pairs
                = (flat_map underlyingOf pairs, flat_map presentValueOf pairs)).
    { unfold aggregate. rewrite aggregate_from. reflexivity. }
    rewrite E. cbn [fst snd]. unfold underlyingOf, presentValueOf.
    repeat split; apply length_tagged || apply scenario_tagged.
  - intros label p key. destruct (String.eqb "scenario" key) eqn:E.
    + apply String.eqb_eq in E. subst key. apply lookup_assign.
    + now apply lookup_assign_other.
  - intros w base f n v o label.
    destruct (run_outcome w base f n v) as (_ & _ & Hrun).
    fold o label in Hrun.
    destruct (answer w base f n 0); [|exact I].
    destruct (answer w base f n 1); [|exact I].
    destruct (answer w base f n 2); [|exact I].
    destruct Hrun as (Hf & _). rewrite Hf. cbn [publishedView underlyingStats pvStats].
    symmetry. apply surjective_pairing.
  - intros label props key. unfold fieldOf, tag. cbn [Js.ownProps].
    destruct (String.eqb "scenario" key) eqn:E.
    + apply String.eqb_eq in E. subst key. apply lookup_assign.
    + now apply lookup_assign_other.
  - intros label props. destruct (Js.lookup "scenario" props) eqn:E; [exact I|].
    unfold tag. cbn [Js.ownProps]. now rewrite assign_fresh.
  - intros label xs. unfold tag. cbn [Js.ownProps].
    exists (Js.indexed (fun x => x) 0 xs). split.
    + rewrite assign_fresh; [reflexivity|]. apply lookup_indexed.
    + rewrite indexed_values. apply map_id.
  - intros label s. unfold tag. cbn [Js.ownProps].
    exists (Js.indexed (fun u => JStr (Utf.unitString u)) 0 (Utf.units s)). split.
    + rewrite assign_fresh; [reflexivity|]. apply lookup_indexed.
    + apply indexed_values.
  - intros label p. destruct p; try exact I; reflexivity.
Qed.

(* ===================================================================== *)
(** ** What every request carries, and what none does *)
(* ===================================================================== *)

(** C9.  Whatever the form says and however the service answers, each
    request a run issues has the components paths=200 and steps=200. *)
Theorem fixed_resolution :
  forall (w : World) (base : string) (f : Form) (n : nat) (v : View),
  Forall (fun url => In "paths=200" (query url) /\ In "steps=200" (query url))
         (requests (exec w (runSensitivity base f) n v)).
Proof.
  intros w base f n v.
  assert (Hurl : forall i, In "paths=200" (query (requestUrl base f i))
                           /\ In "steps=200" (query (requestUrl base f i))).
  { intros i. split; apply In_query; unfold parameters;
      apply in_or_app; left; cbn [In]; tauto. }
  destruct (run_outcome w base f n v) as (_ & _ & Hrun).
  destruct (answer w base f n 0); [|destruct Hrun as (_ & _ & ->); auto].
  destruct (answer w base f n 1); [|destruct Hrun as (_ & _ & ->); auto].
  destruct (answer w base f n 2); destruct Hrun as (_ & _ & ->); auto.
Qed.

(** C10.  The drift [gbmMu] reaches no request: two forms that differ in it
    alone give the same three request strings, and the same run against any
    service, under either model. *)
Theorem mu_not_sent :
  forall (w : World) (base : string) (f : Form) (mu mu' : float) (n : nat) (v : View),
  (forall i, requestUrl base (withMu f mu) i = requestUrl base (withMu f mu') i)
  /\ runSensitivity base (withMu f mu) = runSensitivity base (withMu f mu')
  /\ exec w (runSensitivity base (withMu f mu)) n v
     = exec w (runSensitivity base (withMu f mu')) n v.
Proof. intros. repeat split. Qed.

(* ===================================================================== *)
(** ** One run at a time *)
(* ===================================================================== *)

Import PageFacts.

(** C7.  Whatever the user does and whenever the promises settle, the page
    holds at most one run; while it holds one, [loading] is true, the button
    is disabled, and a click leaves the page as it is: the run in flight is
    untouched and no second one starts. *)
Theorem no_concurrent_runs : forall (base : string) (events : list Event),
  let p := play base events in
  (inFlight p <= 1)%nat
  /\ ((0 < inFlight p)%nat ->
      loading (view p) = true /\ step base p Click = p).
Proof.
  intros base events p.
  pose proof (play_orderly base events) as H. fold p in H.
  unfold orderly, inFlight in *.
  destruct (pending p) as [|t [|]]; cbn [List.length].
  - split; [lia|]. intros Hlt. lia.
  - destruct H as [Hl _]. split; [lia|]. intros _.
    split; [exact Hl|]. cbn [step]. rewrite Hl. reflexivity.
  - contradiction.
Qed.

Lemma no_concurrent_runs_witness :
  (0 < inFlight (play (API_BASE None) [Click]))%nat
  /\ loading (view (play (API_BASE None) [Click])) = true
  /\ step (API_BASE None) (play (API_BASE None) [Click]) Click
     = play (API_BASE None) [Click].
Proof.
  assert (H : (0 < inFlight (play (API_BASE None) [Click]))%nat)
    by (vm_compute; apply le_n).
  split; [exact H|].
  exact (proj2 (no_concurrent_runs (API_BASE None) [Click]) H).
Defined.

(* ===================================================================== *)
(** ** The charts *)
(* ===================================================================== *)

Module ChartFacts.

Lemma includes_tag (label l : string) (p : JSON) :
  Chart.includes label (tag l p) = Fulfilled (Str.includes l label).
Proof.
  unfold Chart.includes, tag. rewrite lookup_assign. reflexivity.
Qed.

Lemma filter_tagged (label l : string) (points : list JSON) :
  Chart.filter label (map (tag l) points)
  = Fulfilled (if Str.includes l label then map (tag l) points else []).
Proof.
  induction points as [|p points IH]; cbn [map Chart.filter].
  - destruct (Str.includes l label); reflexivity.
  - rewrite includes_tag, IH. destruct (Str.includes l label); reflexivity.
Qed.

Lemma filter_app (label : string) (a b a' b' : list JSON) :
  Chart.filter label a = Fulfilled a' ->
  Chart.filter label b = Fulfilled b' ->
  Chart.filter label (a ++ b) = Fulfilled (a' ++ b')%list.
Proof.
  revert a'. induction a as [|d a IH]; intros a' Ha Hb; cbn in *.
  - injection Ha as <-. exact Hb.
  - destruct (Chart.includes label d) as [keep|t]; [|discriminate].
    destruct (Chart.filter label a) as [kept|t]; [|discriminate].
    injection Ha as <-. rewrite (IH kept eq_refl Hb).
    destruct keep; reflexivity.
Qed.

Lemma filter_three (label l0 l1 l2 : string) (a b c : list JSON) :
  Chart.filter label (map (tag l0) a ++ map (tag l1) b ++ map (tag l2) c)
  = Fulfilled ((if Str.includes l0 label then map (tag l0) a else [])
               ++ (if Str.includes l1 label then map (tag l1) b else [])
               ++ (if Str.includes l2 label then map (tag l2) c else []))%list.
Proof.
  apply filter_app; [apply filter_tagged|].
  apply filter_app; apply filter_tagged.
Qed.

(** Which of the three names of line 126 each label of a plan contains. *)
Lemma labels_and_names (p : ShiftPct) :
  map (fun name => map (fun i => Str.includes (labelAt p i) name) [0; 1; 2]%nat)
      Chart.scenarios
  = [ [true; false; false]; [false; true; false]; [false; false; true] ].
Proof. destruct p; vm_compute; reflexivity. Qed.

Lemma filter_isTagged (label : string) (series : list JSON) :
  forallb isTagged series = true ->
  exists kept, Chart.filter label series = Fulfilled kept.
Proof.
  induction series as [|d series IH]; cbn [forallb Chart.filter]; intros H.
  - eexists. reflexivity.
  - apply andb_true_iff in H as [Hd Hs].
    destruct (IH Hs) as [kept ->].
    unfold isTagged, scenarioOf in Hd. unfold Chart.includes.
    destruct d; try discriminate.
    destruct (Js.lookup "scenario" props) as [[]|]; try discriminate.
    eexists. reflexivity.
Qed.

Lemma lines_isTagged (series : list JSON) :
  forallb isTagged series = true ->
  exists ls, Chart.lines series = Fulfilled ls.
Proof.
  intros H. unfold Chart.lines, Chart.scenarios.
  cbn [Chart.groups]. unfold Chart.group.
  destruct (filter_isTagged "Down" series H) as [k0 ->].
  destruct (filter_isTagged "Base" series H) as [k1 ->].
  destruct (filter_isTagged "Up" series H) as [k2 ->].
  eexists. reflexivity.
Qed.

Lemma render_tidy (v : View) : tidy v -> exists s, render v = Fulfilled s.
Proof.
  intros [Hu Hp]. unfold render.
  destruct (lines_isTagged _ Hu) as [lu ->].
  destruct (lines_isTagged _ Hp) as [lp ->].
  eexists. reflexivity.
Qed.

Lemma isTagged_tag (l : string) (p : JSON) : isTagged (tag l p) = true.
Proof. unfold isTagged. rewrite scenarioOf_tag. reflexivity. Qed.

Lemma forallb_tagged (l : string) (points : list JSON) :
  forallb isTagged (map (tag l) points) = true.
Proof.
  induction points as [|p points IH]; cbn; [reflexivity|].
  rewrite isTagged_tag, IH. reflexivity.
Qed.

End ChartFacts.

(** X1.  The charts group a published series by scenario without loss: for
    the three labels of any plan, filtering the aggregate on "Down", "Base"
    and "Up" gives back, in order, exactly the tagged points of the first,
    the second and the third body, for the underlying series and for the
    present-value series. *)
Theorem chart_groups_are_the_scenarios :
  forall (p : ShiftPct) (d0 d1 d2 : list JSON * list JSON),
  let result := aggregate [(labelAt p 0, d0); (labelAt p 1, d1); (labelAt p 2, d2)] in
  map (fun name => Chart.filter name (fst result)) Chart.scenarios
  = [ Fulfilled (map (tag (labelAt p 0)) (fst d0));
      Fulfilled (map (tag (labelAt p 1)) (fst d1));
      Fulfilled (map (tag (labelAt p 2)) (fst d2)) ]
  /\ map (fun name => Chart.filter name (snd result)) Chart.scenarios
     = [ Fulfilled (map (tag (labelAt p 0)) (snd d0));
         Fulfilled (map (tag (labelAt p 1)) (snd d1));
         Fulfilled (map (tag (labelAt p 2)) (snd d2)) ].
Proof.
  intros p d0 d1 d2 result. subst result.
  unfold aggregate. rewrite aggregate_from.
  pose proof (ChartFacts.labels_and_names p) as Hn.
  cbn [map Chart.scenarios] in Hn.
  assert (D0 : Str.includes (labelAt p 0) "Down" = true) by congruence.
  assert (D1 : Str.includes (labelAt p 1) "Down" = false) by congruence.
  assert (D2 : Str.includes (labelAt p 2) "Down" = false) by congruence.
  assert (B0 : Str.includes (labelAt p 0) "Base" = false) by congruence.
  assert (B1 : Str.includes (labelAt p 1) "Base" = true) by congruence.
  assert (B2 : Str.includes (labelAt p 2) "Base" = false) by congruence.
  assert (U0 : Str.includes (labelAt p 0) "Up" = false) by congruence.
  assert (U1 : Str.includes (labelAt p 1) "Up" = false) by congruence.
  assert (U2 : Str.includes (labelAt p 2) "Up" = true) by congruence.
  clear Hn.
  unfold underlyingOf, presentValueOf, taggedWith.
  cbn [fst snd flat_map map Chart.scenarios List.app].
  rewrite !app_nil_r, !ChartFacts.filter_three.
  rewrite D0, D1, D2, B0, B1, B2, U0, U1, U2.
  cbn [List.app]. rewrite !app_nil_r. split; reflexivity.
Qed.

(* ===================================================================== *)
(** ** What a run gives the setters *)
(* ===================================================================== *)

Module EnsuresFacts.

Import ChartFacts RunFacts.

Section Rules.

Context (C : Cmd -> Prop).

Lemma ensures_bind {A B} (Q : B -> Prop) (m : Async A) (f : A -> Async B) :
  ensures C (fun a => ensures C Q (f a)) m -> ensures C Q (bind m f).
Proof.
  induction m as [a|t|c k IH|url k IH|res k IH]; cbn; intros H; auto.
  destruct H as [Hc Hk]. split; auto.
Qed.

Lemma ensures_weaken {A} (P Q : A -> Prop) (m : Async A) :
  (forall a, P a -> Q a) -> ensures C P m -> ensures C Q m.
Proof.
  intros HPQ. induction m as [a|t|c k IH|url k IH|res k IH]; cbn; intros H; auto.
  destruct H as [Hc Hk]. split; auto.
Qed.

Lemma ensures_catch {A} (Q : A -> Prop) (m : Async A) (h : Thrown -> Async A) :
  ensures C Q m -> (forall t, ensures C Q (h t)) -> ensures C Q (catch m h).
Proof.
  intros Hm Hh.
  induction m as [a|t|c k IH|url k IH|res k IH]; cbn in *; auto.
  destruct Hm as [Hc Hk]. split; auto.
Qed.

Lemma ensures_finally {A} (Q : A -> Prop) (m : Async A) (f : Async unit) :
  ensures C Q m -> ensures C (fun _ => True) f -> ensures C Q (finally m f).
Proof.
  intros Hm Hf.
  induction m as [a|t|c k IH|url k IH|res k IH]; cbn in *; auto.
  - apply ensures_bind. eapply ensures_weaken; [|exact Hf]. intros _ _. exact Hm.
  - apply ensures_bind. eapply ensures_weaken; [|exact Hf]. intros _ _. exact I.
  - destruct Hm as [Hc Hk]. split; auto.
Qed.

Lemma ensures_settle {A} (Q : A -> Prop) (r : Settled A) :
  (forall a, r = Fulfilled a -> Q a) -> ensures C Q (settle r).
Proof. destruct r; cbn; auto. Qed.

Lemma ensures_forLoop {T} (Inv : T -> Prop) (body : nat -> T -> Async T) :
  (forall i acc, Inv acc -> ensures C Inv (body i acc)) ->
  forall count from acc, Inv acc -> ensures C Inv (forLoop count from body acc).
Proof.
  intros Hbody. induction count as [|count IH]; intros from acc Hacc; cbn.
  - exact Hacc.
  - apply ensures_bind. eapply ensures_weaken; [|apply Hbody, Hacc].
    intros acc' Hacc'. apply IH, Hacc'.
Qed.

End Rules.

Lemma taggedSeries_tagged (data : JSON) (key label : string) (l : list JSON) :
  taggedSeries data key label = Fulfilled l -> forallb isTagged l = true.
Proof.
  rewrite taggedSeries_spec. destruct (seriesOf data key); [|discriminate].
  intros H. injection H as <-. apply forallb_tagged.
Qed.

Lemma ensures_scenario (base : string) (f : Form) (i : nat)
    (acc : list JSON * list JSON) :
  bothTagged acc -> ensures publishesTagged bothTagged (scenario base f i acc).
Proof.
  destruct acc as [us0 ps0]. intros [Hu Hp]. cbn [fst snd] in *.
  unfold scenario, fetch, readJson. cbn [bind ensures]. intros r.
  apply ensures_bind, ensures_settle. intros res _.
  destruct (negb (ok res)); [exact I|].
  cbn [bind ensures]. intros r'.
  apply ensures_bind, ensures_settle. intros data _.
  apply ensures_bind, ensures_settle. intros us Hus.
  apply ensures_bind, ensures_settle. intros ps Hps.
  cbn. unfold bothTagged. cbn [fst snd].
  rewrite !forallb_app, Hu, Hp.
  rewrite (taggedSeries_tagged _ _ _ _ Hus), (taggedSeries_tagged _ _ _ _ Hps).
  split; reflexivity.
Qed.

Lemma ensures_run (base : string) (f : Form) :
  ensures publishesTagged (fun _ => True) (runSensitivity base f).
Proof.
  unfold runSensitivity.
  cbn [bind setLoading setErrorMsg setUnderlyingStats setPvStats exec_cmd ensures
       publishesTagged forallb].
  repeat split.
  apply ensures_finally; [|cbn; auto].
  apply ensures_catch; [|intros t; cbn; auto].
  apply ensures_bind.
  eapply ensures_weaken;
    [|apply (ensures_forLoop publishesTagged bothTagged);
      [intros i acc; apply ensures_scenario|split; reflexivity]].
  intros [us ps] [Hu Hp]. cbn in *. auto.
Qed.

(** Commands that publish tagged points keep a view tidy. *)
Lemma apply_tidy (c : Cmd) (v : View) :
  publishesTagged c -> tidy v -> tidy (apply c v).
Proof.
  unfold tidy. destruct c; cbn; intros Hc [Hu Hp]; auto.
Qed.

Lemma advance_tidy (m : Async unit) (v : View) :
  ensures publishesTagged (fun _ => True) m -> tidy v ->
  tidy (fst (advance m v))
  /\ Forall (ensures publishesTagged (fun _ => True)) (snd (advance m v)).
Proof.
  revert v. induction m as [a|t|c k IH|url k IH|res k IH]; intros v Hm Hv;
    cbn [advance fst snd].
  - auto.
  - auto.
  - destruct Hm as [Hc Hk]. apply IH; [exact Hk|]. now apply apply_tidy.
  - split; [exact Hv|]. constructor; [exact Hm|constructor].
  - split; [exact Hv|]. constructor; [exact Hm|constructor].
Qed.

Lemma Forall_remove_nth {A} (P : A -> Prop) (n : nat) (l : list A) :
  Forall P l -> Forall P (remove_nth n l).
Proof.
  revert n. induction l as [|x l IH]; intros n H; destruct n; cbn; auto.
  - now inversion H.
  - inversion H; subst. constructor; auto.
Qed.

Lemma Forall_nth_error {A} (P : A -> Prop) (n : nat) (l : list A) (x : A) :
  Forall P l -> nth_error l n = Some x -> P x.
Proof.
  intros H E. apply nth_error_In in E.
  rewrite Forall_forall in H. auto.
Qed.

Lemma resume_safe (p : Page) (task : nat) (m : Async unit) :
  safePage p -> ensures publishesTagged (fun _ => True) m ->
  safePage (resume p task m).
Proof.
  intros [Hv Hp] Hm. unfold resume, safePage.
  destruct (advance_tidy m (view p) Hm Hv) as [Hv' Hs].
  destruct (advance m (view p)) as [v' susp]. cbn [fst snd view pending] in *.
  split; [exact Hv'|]. apply Forall_app. split; [|exact Hs].
  now apply Forall_remove_nth.
Qed.

Lemma step_safe (base : string) (p : Page) (e : Event) :
  safePage p -> safePage (step base p e).
Proof.
  intros Hp. pose proof Hp as [Hv Hpend].
  destruct e as [|f|task r|task]; cbn [step].
  - destruct (loading (view p)); [exact Hp|].
    destruct (advance_tidy _ (view p) (ensures_run base (form p)) Hv) as [Hv' Hs].
    destruct (advance (runSensitivity base (form p)) (view p)) as [v' susp].
    cbn [fst snd] in *. split; cbn [view pending]; [exact Hv'|].
    apply Forall_app. split; assumption.
  - exact Hp.
  - destruct (nth_error (pending p) task) as [t|] eqn:E; [|exact Hp].
    pose proof (Forall_nth_error _ _ _ _ Hpend E) as Ht.
    destruct t; try exact Hp. apply resume_safe; [exact Hp|]. apply Ht.
  - destruct (nth_error (pending p) task) as [t|] eqn:E; [|exact Hp].
    pose proof (Forall_nth_error _ _ _ _ Hpend E) as Ht.
    destruct t; try exact Hp. apply resume_safe; [exact Hp|]. apply Ht.
Qed.

Lemma play_safe (base : string) (events : list Event) :
  safePage (play base events).
Proof.
  unfold play.
  assert (H : safePage initialPage) by (repeat split; constructor).
  revert H. generalize initialPage.
  induction events as [|e events IH]; intros p Hp; cbn; [exact Hp|].
  apply IH, step_safe, Hp.
Qed.

End EnsuresFacts.

(** X2.  The component can always be rendered: on every page reachable from
    the initial one, whatever the user does and whatever the service
    answers, every point of both series carries a string [scenario], so the
    filters of the two charts do not throw and the render yields a screen.
    (On a point without [scenario] the filter would throw.) *)
Theorem render_never_throws : forall (base : string) (events : list Event),
  tidy (view (play base events))
  /\ (exists screen, render (view (play base events)) = Fulfilled screen)
  /\ (forall (label : string) (props : list (string * JSON)),
        match Js.lookup "scenario" props with
        | None => exists t, Chart.filter label [JObj props] = Rejected t
        | Some _ => True
        end).
Proof.
  intros base events.
  destruct (EnsuresFacts.play_safe base events) as [Hv _].
  split; [exact Hv|]. split; [now apply ChartFacts.render_tidy|].
  intros label props. destruct (Js.lookup "scenario" props) eqn:E; [exact I|].
  cbn. rewrite E. eexists. reflexivity.
Qed.

(* ===================================================================== *)
(** ** What a run leaves on the screen *)
(* ===================================================================== *)

(** X3.  The error box after a run: nothing when the three calls succeeded;
    otherwise the message of the first failure, unless that message is
    empty, in which case the box stays hidden although the run failed.  A
    failure by status always shows its message. *)
Theorem error_box_after_run :
  forall (w : World) (base : string) (f : Form) (n : nat) (v : View),
  errorBox (final (exec w (runSensitivity base f) n v))
  = match answer w base f n 0 with
    | Rejected t => shownFor t
    | Fulfilled _ =>
        match answer w base f n 1 with
        | Rejected t => shownFor t
        | Fulfilled _ =>
            match answer w base f n 2 with
            | Rejected t => shownFor t
            | Fulfilled _ => None
            end
        end
    end
  /\ forall (label : string) (res : Response),
       shownFor (statusError label res)
       = Some ("Scenario " ++ label ++ " failed: " ++ Str.ofN (status res)).
Proof.
  intros w base f n v.
  assert (Hshown : forall t, errorBox (failedView t) = shownFor t).
  { intros t. unfold errorBox, failedView, shownFor. cbn [errorMsg].
    destruct (messageOf t); reflexivity. }
  split.
  - destruct (RunFacts.run_outcome w base f n v) as (_ & _ & Hrun).
    destruct (answer w base f n 0); [|destruct Hrun as (-> & _); apply Hshown].
    destruct (answer w base f n 1); [|destruct Hrun as (-> & _); apply Hshown].
    destruct (answer w base f n 2); destruct Hrun as (-> & _);
      [reflexivity|apply Hshown].
  - intros label res. reflexivity.
Qed.

(** X4.  A run starts from a clean slate: the view it leaves, the requests
    it issues and what it logs are the same whatever the page showed before
    it, so no earlier result or error survives into the new one. *)
Theorem run_forgets_the_past :
  forall (w : World) (base : string) (f : Form) (n : nat) (v v' : View),
  final (exec w (runSensitivity base f) n v)
  = final (exec w (runSensitivity base f) n v')
  /\ requests (exec w (runSensitivity base f) n v)
     = requests (exec w (runSensitivity base f) n v')
  /\ console (exec w (runSensitivity base f) n v)
     = console (exec w (runSensitivity base f) n v').
Proof.
  intros w base f n v v'.
  destruct (RunFacts.run_outcome w base f n v) as (_ & _ & H).
  destruct (RunFacts.run_outcome w base f n v') as (_ & _ & H').
  destruct (answer w base f n 0);
    [|destruct H as (-> & -> & ->), H' as (-> & -> & ->); auto].
  destruct (answer w base f n 1);
    [|destruct H as (-> & -> & ->), H' as (-> & -> & ->); auto].
  destruct (answer w base f n 2);
    destruct H as (-> & -> & ->), H' as (-> & -> & ->); auto.
Qed.

(** X5.  One scenario call, whatever it is answered, issues exactly one
    request, sets no state and logs nothing: the view is touched only before
    the loop and after it. *)
Theorem scenario_call_footprint :
  forall (w : World) (base : string) (f : Form) (i : nat)
         (acc : list JSON * list JSON) (n : nat) (v : View),
  final (exec w (scenario base f i acc) n v) = v
  /\ requests (exec w (scenario base f i acc) n v) = [requestUrl base f i]
  /\ console (exec w (scenario base f i acc) n v) = []
  /\ Forall (eq v) (seen (exec w (scenario base f i acc) n v)).
Proof.
  intros w base f i [us0 ps0] n v.
  destruct (RunFacts.scenario_outcome w base f i us0 ps0 n v) as (_ & Hf & Hr & Hc).
  repeat split; try assumption.
  unfold scenario. RunFacts.evaluate.
  destruct (w n (requestUrl base f i)) as [res|t]; [|RunFacts.leaf].
  RunFacts.evaluate. destruct (ok res); [|RunFacts.leaf].
  RunFacts.evaluate. destruct (json res) as [data|t]; [|RunFacts.leaf].
  RunFacts.evaluate.
  destruct (taggedSeries data "underlyingStats" _); [|RunFacts.leaf].
  RunFacts.evaluate.
  destruct (taggedSeries data "pvStats" _); RunFacts.leaf.
Qed.

(** X6.  The tooltip formatter gives the dash for [undefined] and for
    [null], the [toFixed(4)] rendering for a number (four decimals for every
    finite number of magnitude below 10^21) and throws for a value of any
    other kind, such as the string a response may carry in place of a
    number. *)
Theorem tooltip_formatter :
  Chart.formatter None = Fulfilled "–"
  /\ Chart.formatter (Some JNull) = Fulfilled "–"
  /\ (forall x, Chart.formatter (Some (JNum x)) = Fulfilled (Num.toFixed 4 x)
                /\ (if fixedRange x then isFixed 4 (Num.toFixed 4 x) else true) = true)
  /\ (forall v,
        match v with
        | JNull | JNum _ => True
        | _ => exists t, Chart.formatter (Some v) = Rejected t
        end).
Proof.
  repeat split.
  - destruct (fixedRange x) eqn:E; [|reflexivity].
    now apply NumFacts.toFixed_isFixed.
  - intros v. destruct v; try exact I; eexists; reflexivity.
Qed.

(** X7.  Once the promises of a run have all settled, whatever they settled
    to, nothing is pending and the button is enabled again with its resting
    caption: no answer of the service leaves the page in its running
    state. *)
Theorem button_released :
  forall (base : string) (w : World) (p : Page) (n : nat),
  loading (view p) = false -> pending p = [] ->
  let p' := fold_left (step base)
              (Click :: schedule w (runSensitivity base (form p)) n) p in
  pending p' = []
  /\ runButton (view p') = {| disabled := false; caption := "Run Sensitivity" |}.
Proof.
  intros base w p n Hl Hp p'. subst p'.
  rewrite (PageFacts.click_then_settle base w p n Hl Hp). cbn [pending view].
  split; [reflexivity|].
  destruct (RunFacts.run_outcome w base (form p) n (view p)) as (_ & _ & Hrun).
  destruct (answer w base (form p) n 0); [|destruct Hrun as (-> & _); reflexivity].
  destruct (answer w base (form p) n 1); [|destruct Hrun as (-> & _); reflexivity].
  destruct (answer w base (form p) n 2); destruct Hrun as (-> & _); reflexivity.
Qed.

Lemma button_released_witness :
  pending (fold_left (step (API_BASE None))
             (Click :: schedule networkDownAtSecond
                         (runSensitivity (API_BASE None) (form initialPage)) 0)
             initialPage) = []
  /\ runButton (view (fold_left (step (API_BASE None))
                        (Click :: schedule networkDownAtSecond
                                    (runSensitivity (API_BASE None) (form initialPage)) 0)
                        initialPage))
     = {| disabled := false; caption := "Run Sensitivity" |}.
Proof.
  exact (button_released (API_BASE None) networkDownAtSecond initialPage 0
           eq_refl eq_refl).
Defined.

(* ===================================================================== *)
(** ** The requests of one run, side by side *)
(* ===================================================================== *)

Lemma append_nil_r (s : string) : s ++ "" = s.
Proof. induction s as [|c s IH]; simpl; [reflexivity|]. rewrite IH. reflexivity. Qed.

(** X8.  The three requests of a run differ in one value only: there are a
    text before and a text after, the same for the three scenarios, between
    which each request carries the shocked scalar (the spot or the
    volatility of the selected model) times the scenario's factor, rendered
    by [toFixed(4)]. *)
Theorem requests_differ_in_one_value : forall (base : string) (f : Form),
  exists before after : string,
    forall i,
      requestUrl base f i
      = before ++ Num.toFixed 4 (shocked f * factorAt (shiftPct f) i)%float ++ after.
Proof.
  intros base f.
  set (shared :=
         base ++ "/api/simulation/fx-forward-paths?" ++ "model="
         ++ modelName (modelType f)
         ++ "&paths=200&steps=200&maturity=" ++ Num.toString (maturity f)
         ++ "&r_dom=" ++ Num.toString (r_dom f)
         ++ "&r_for=" ++ Num.toString (r_for f) ++ "&spot=").
  unfold requestUrl, currentSpot, currentVol, shocked.
  destruct (shockParam f), (modelType f) eqn:Em.
  - exists shared, ("&sigma_gbm=" ++ Num.toFixed 4 (baseVol f)).
    intros i. subst shared. repeat rewrite append_assoc. reflexivity.
  - exists shared,
      ("&sigma_ou=" ++ Num.toFixed 4 (baseVol f)
       ++ "&kappa=" ++ Num.toString (ouKappa f)
       ++ "&theta=" ++ Num.toString (ouTheta f)).
    intros i. subst shared. repeat rewrite append_assoc. reflexivity.
  - exists (shared ++ Num.toFixed 4 (baseSpot f) ++ "&sigma_gbm="), "".
    intros i. subst shared. rewrite append_nil_r.
    repeat rewrite append_assoc. reflexivity.
  - exists (shared ++ Num.toFixed 4 (baseSpot f) ++ "&sigma_ou="),
      ("&kappa=" ++ Num.toString (ouKappa f)
       ++ "&theta=" ++ Num.toString (ouTheta f)).
    intros i. subst shared. repeat rewrite append_assoc. reflexivity.
Qed.

(** X9.  The fields of the model that is not selected reach no request:
    under GBM the four Ornstein-Uhlenbeck fields can be replaced by any
    others, and under OU the three GBM fields, without changing a request
    string or anything else of the run. *)
Theorem inactive_model_ignored :
  forall (w : World) (base : string) (f g : Form) (n : nat) (v : View),
  match modelType f with
  | gbm =>
      (forall i, requestUrl base (withOu f g) i = requestUrl base f i)
      /\ exec w (runSensitivity base (withOu f g)) n v
         = exec w (runSensitivity base f) n v
  | ou =>
      (forall i, requestUrl base (withGbm f g) i = requestUrl base f i)
      /\ exec w (runSensitivity base (withGbm f g)) n v
         = exec w (runSensitivity base f) n v
  end.
Proof.
  intros w base f g n v. destruct f as [m]. destruct m; cbn [modelType]; split;
    reflexivity.
Qed.

(* ===================================================================== *)
(** ** Editing the form while a run is in flight *)
(* ===================================================================== *)

Module EditFacts.

Lemma step_sameRun (base : string) (p q : Page) (e : Event) :
  isClick e = false -> sameRun p q -> sameRun (step base p e) (step base q e).
Proof.
  intros He [Hv Hp]. destruct e as [|f|task r|task]; cbn [step]; try discriminate.
  - split; assumption.
  - rewrite Hp. destruct (nth_error (pending q) task) as [[]|];
      try (split; assumption).
    unfold resume. rewrite Hv, Hp.
    destruct (advance (k r) (view q)). split; reflexivity.
  - rewrite Hp. destruct (nth_error (pending q) task) as [[]|];
      try (split; assumption).
    unfold resume. rewrite Hv, Hp.
    destruct (advance (k (json res)) (view q)). split; reflexivity.
Qed.

Lemma edits_dropped (base : string) (events : list Event) :
  forallb (fun e => negb (isClick e)) events = true ->
  forall p q, sameRun p q ->
    sameRun (fold_left (step base) events p)
            (fold_left (step base) (List.filter (fun e => negb (isEdit e)) events) q).
Proof.
  induction events as [|e events IH]; intros Hc p q Hpq; [exact Hpq|].
  cbn [forallb] in Hc. apply andb_true_iff in Hc as [He Hc].
  apply negb_true_iff in He.
  cbn [fold_left List.filter]. destruct (isEdit e) eqn:Ee; cbn [negb fold_left].
  - apply IH; [exact Hc|]. destruct e; try discriminate. exact Hpq.
  - apply IH; [exact Hc|]. now apply step_sameRun.
Qed.

Lemma schedule_no_click (w : World) (m : Async unit) (n : nat) :
  forallb (fun e => negb (isClick e)) (schedule w m n) = true.
Proof.
  revert n. induction m as [a|t|c k IH|url k IH|res k IH]; intros n; cbn; auto.
Qed.

Lemma no_click_filter (events : list Event) :
  forallb (fun e => negb (isClick e))
          (List.filter (fun e => negb (isEdit e)) events) = true ->
  forallb (fun e => negb (isClick e)) events = true.
Proof.
  induction events as [|e events IH]; cbn; [reflexivity|].
  destruct e; cbn; auto; discriminate.
Qed.

End EditFacts.

(** X10.  A run keeps the parameters it was started with: however the user
    edits the form between the click and the settling of the promises, the
    run leaves the view it would have left without the edits. *)
Theorem edits_in_flight :
  forall (base : string) (w : World) (p : Page) (n : nat) (events : list Event),
  loading (view p) = false -> pending p = [] ->
  List.filter (fun e => negb (isEdit e)) events
  = schedule w (runSensitivity base (form p)) n ->
  view (fold_left (step base) (Click :: events) p)
  = final (exec w (runSensitivity base (form p)) n (view p))
  /\ pending (fold_left (step base) (Click :: events) p) = [].
Proof.
  intros base w p n events Hl Hp Hev.
  assert (Hc : forallb (fun e => negb (isClick e)) events = true).
  { apply EditFacts.no_click_filter. rewrite Hev.
    apply EditFacts.schedule_no_click. }
  pose proof (EditFacts.edits_dropped base events Hc
                (step base p Click) (step base p Click) (conj eq_refl eq_refl))
    as [Hv Hq].
  rewrite Hev in Hv, Hq.
  pose proof (PageFacts.click_then_settle base w p n Hl Hp) as Hrun.
  cbn [fold_left] in Hrun |- *.
  rewrite Hv, Hq, Hrun. split; reflexivity.
Qed.

Lemma edits_in_flight_witness :
  view (fold_left (step (API_BASE None))
          (Click :: Edit ouForm
                 :: schedule serviceUp
                      (runSensitivity (API_BASE None) (form initialPage)) 0)
          initialPage)
  = final (exec serviceUp (runSensitivity (API_BASE None) (form initialPage)) 0
             (view initialPage)).
Proof.
  exact (proj1 (edits_in_flight (API_BASE None) serviceUp initialPage 0
                  (Edit ouForm
                     :: schedule serviceUp
                          (runSensitivity (API_BASE None) (form initialPage)) 0)
                  eq_refl eq_refl
                  ltac:(vm_compute; reflexivity))).
Defined.

(* ===================================================================== *)
(** ** Reading a request back *)
(* ===================================================================== *)

Lemma query_clean_endpoint (base : string) (f : Form) (i : nat) :
  clean (endpoint base) = true ->
  query (requestUrl base f i) = parameters f i.
Proof.
  intros Hc. rewrite UrlFacts.query_requestUrl. unfold query at 1.
  rewrite (StrFacts.split_clean _ _ Hc). reflexivity.
Qed.

(** X11.  When the endpoint has no [?] or [&] of its own, a request string
    reads back: looked up by name, each parameter gives exactly what was
    written for it; a GBM request has eight components and none named
    sigma_ou, kappa or theta, an OU request has ten and none named
    sigma_gbm. *)
Theorem read_back : forall (base : string) (f : Form) (i : nat),
  clean (endpoint base) = true ->
  let q := query (requestUrl base f i) in
  valueOf "model" q = Some (modelName (modelType f))
  /\ valueOf "paths" q = Some "200"
  /\ valueOf "steps" q = Some "200"
  /\ valueOf "maturity" q = Some (Num.toString (maturity f))
  /\ valueOf "r_dom" q = Some (Num.toString (r_dom f))
  /\ valueOf "r_for" q = Some (Num.toString (r_for f))
  /\ valueOf "spot" q = Some (Num.toFixed 4 (currentSpot f i))
  /\ match modelType f with
     | gbm =>
         valueOf "sigma_gbm" q = Some (Num.toFixed 4 (currentVol f i))
         /\ valueOf "sigma_ou" q = None
         /\ valueOf "kappa" q = None
         /\ valueOf "theta" q = None
         /\ List.length q = 8%nat
     | ou =>
         valueOf "sigma_ou" q = Some (Num.toFixed 4 (currentVol f i))
         /\ valueOf "kappa" q = Some (Num.toString (ouKappa f))
         /\ valueOf "theta" q = Some (Num.toString (ouTheta f))
         /\ valueOf "sigma_gbm" q = None
         /\ List.length q = 10%nat
     end.
Proof.
  intros base f i Hc q. subst q. rewrite (query_clean_endpoint base f i Hc).
  unfold parameters.
  generalize (Num.toString (maturity f)) (Num.toString (r_dom f))
             (Num.toString (r_for f)) (Num.toFixed 4 (currentSpot f i))
             (Num.toFixed 4 (currentVol f i)) (Num.toString (ouKappa f))
             (Num.toString (ouTheta f)).
  intros a b c d e k t.
  destruct (modelType f); cbn; repeat split; reflexivity.
Qed.

Lemma read_back_witness :
  valueOf "spot" (query (requestUrl (API_BASE None) ouForm 2)) = Some "1.1000"
  /\ valueOf "sigma_gbm" (query (requestUrl (API_BASE None) ouForm 2)) = None.
Proof.
  pose proof (read_back (API_BASE None) ouForm 2 ltac:(vm_compute; reflexivity))
    as (_ & _ & _ & _ & _ & _ & Hspot & _ & _ & _ & Hgbm & _).
  split; [exact Hspot|exact Hgbm].
Defined.

(* ===================================================================== *)
(** ** The screen during and after a run *)
(* ===================================================================== *)

(** X12.  The button is disabled exactly while a run is pending: on every
    reachable page its [disabled] flag is true when a run is suspended at an
    [await] and false when none is. *)
Theorem button_tracks_run : forall (base : string) (events : list Event),
  disabled (runButton (view (play base events)))
  = Nat.ltb 0 (inFlight (play base events)).
Proof.
  intros base events.
  pose proof (PageFacts.play_orderly base events) as H.
  unfold orderly, inFlight, runButton in *. cbn [disabled].
  destruct (pending (play base events)) as [|t [|]]; cbn [List.length].
  - rewrite H. reflexivity.
  - destruct H as [-> _]. reflexivity.
  - contradiction.
Qed.

(** X13.  While a run waits, whatever was on the page before, the screen
    shows the disabled button captioned "Running…", no error box and two
    charts without data; when the run fails it shows the enabled button, the
    error box of the failure and, again, two charts without data. *)
Theorem screens_of_a_run :
  forall (w : World) (base : string) (f : Form) (n : nat) (v : View),
  List.length blankLines = 9%nat
  /\ Forall (fun l => Chart.data l = []) blankLines
  /\ Forall (fun s =>
               render s
               = Fulfilled {| button := {| disabled := true; caption := "Running…" |};
                              errorShown := None;
                              underlyingChart := blankLines;
                              pvChart := blankLines |})
            (seen (exec w (runSensitivity base f) n v))
  /\ forall t,
       render (failedView t)
       = Fulfilled {| button := {| disabled := false; caption := "Run Sensitivity" |};
                      errorShown := shownFor t;
                      underlyingChart := blankLines;
                      pvChart := blankLines |}.
Proof.
  intros w base f n v. split; [reflexivity|]. split; [repeat constructor|]. split.
  - destruct (RunFacts.run_outcome w base f n v) as (_ & Hs & _).
    eapply Forall_impl; [|exact Hs]. intros s <-. reflexivity.
  - intros t. unfold render, failedView, errorBox, shownFor, runButton.
    cbn [underlyingStats pvStats errorMsg loading].
    destruct (messageOf t); reflexivity.
Qed.

